(** * The chat gateway: providers, streaming relay, session store, mode registry

    A shallow embedding of [backend/app.py] and of the four providers under
    [llm/] ([llm_mock.py], [llm_rag.py], [llm_tinyllama.py],
    [llm_llama3_1_8b.py]).

    Conventions of the embedding.
    - A Python [str] is a [string]; a character is read as a code point
      below 256.
    - A Python generator is the finite list of the fragments it yields
      together with the way it ends ([completion]): by [StopIteration] or by
      an exception that leaves the generator.
    - The HTTP client ([requests.post]) and the JSON decoder ([json.loads])
      are the environment: functions handed to the providers.
    - [CHAT_SESSIONS] maps a session id to a list object; list objects live
      in a heap, so that a list captured by a running generator and the list
      the session map points to can differ after [clear_chat].
    - Calls to the logger change nothing that the gateway reads back and are
      left out. *)

From Stdlib Require Import ZArith Ascii String List Bool Lia.
From stdpp Require Import base option list strings gmap.

Local Open Scope Z_scope.
Set Warnings "-register-all".

(** ** Python strings *)

Module PyStr.

(** The line feed and the double quote, as one-character strings. *)
Definition LF : string := String "010"%char EmptyString.
Definition DQ : string := String "034"%char EmptyString.

(** [str.isspace] of one character (code points below 256): the ASCII
    white space 0x09..0x0d, 0x1c..0x1f and 0x20, then 0x85 and 0xa0. *)
Definition isspace (c : ascii) : bool :=
  let n := nat_of_ascii c in
  ((9 <=? n) && (n <=? 13) || (28 <=? n) && (n <=? 32)
   || (n =? 133) || (n =? 160))%nat.

(** [s.lstrip()] *)
Fixpoint lstrip (s : string) : string :=
  match s with
  | String c s' => if isspace c then lstrip s' else s
  | EmptyString => EmptyString
  end.

(** [s.rstrip()]: a character is dropped when it is white space and
    everything after it has been dropped. *)
Fixpoint rstrip (s : string) : string :=
  match s with
  | String c s' =>
      match rstrip s' with
      | EmptyString => if isspace c then EmptyString else String c EmptyString
      | r => String c r
      end
  | EmptyString => EmptyString
  end.

(** [s.strip()] *)
Definition strip (s : string) : string := rstrip (lstrip s).

(** [s.split()] with no separator: the maximal runs of characters that are
    not white space, in order; [cur] is the run being read. *)
Fixpoint split_go (cur : string) (s : string) : list string :=
  match s with
  | EmptyString =>
      match cur with EmptyString => [] | _ => [cur] end
  | String c s' =>
      if isspace c
      then match cur with
           | EmptyString => split_go EmptyString s'
           | _ => cur :: split_go EmptyString s'
           end
      else split_go (cur +:+ String c EmptyString) s'
  end.

Definition split (s : string) : list string := split_go EmptyString s.

(** [sep in s] for strings *)
Fixpoint contains (sep s : string) : bool :=
  String.prefix sep s ||
  match s with
  | String _ s' => contains sep s'
  | EmptyString => false
  end.

(** [s.split(sep)[0]] for a non-empty [sep]: the text before the first
    occurrence of [sep], all of [s] when there is none. *)
Fixpoint split_head (sep s : string) : string :=
  if String.prefix sep s then EmptyString
  else match s with
       | String c s' => String c (split_head sep s')
       | EmptyString => EmptyString
       end.

(** [s[n:]] *)
Fixpoint slice_from (n : nat) (s : string) : string :=
  match n, s with
  | O, _ => s
  | S n', String _ s' => slice_from n' s'
  | S _, EmptyString => EmptyString
  end.

(** [not s] for a string *)
Definition is_empty (s : string) : bool :=
  match s with EmptyString => true | _ => false end.

(** [''.join(l)] *)
Definition join (l : list string) : string := String.concat EmptyString l.

End PyStr.

(** ** JSON values and the Python operations the gateway applies to them *)

Module Json.

(** What [json.loads] returns, and what [request.json] holds: [None],
    [bool], [int], [str], [list], [dict]. A [dict] keeps its members as
    written; a repeated key's last member is the one a lookup sees. *)
Inductive json :=
| JNull
| JBool (b : bool)
| JNum (n : Z)
| JStr (s : string)
| JArr (items : list json)
| JObj (members : list (string * json)).

(** The exceptions that the gateway's own expressions raise on a value of
    the wrong kind. *)
Inductive pyexn := AttributeError | TypeError.

(** [d.get(key, default)] on the members of a [dict]. *)
Fixpoint dict_get (key : string) (default : json)
    (members : list (string * json)) : json :=
  match members with
  | [] => default
  | (k, v) :: rest =>
      dict_get key (if String.eqb k key then v else default) rest
  end.

(** [bool(v)], the test of [if v:] *)
Definition truthy (v : json) : bool :=
  match v with
  | JNull => false
  | JBool b => b
  | JNum n => negb (n =? 0)
  | JStr s => negb (PyStr.is_empty s)
  | JArr items => match items with [] => false | _ => true end
  | JObj members => match members with [] => false | _ => true end
  end.

(** The characters of a string, each a one-character string. *)
Fixpoint chars (s : string) : list json :=
  match s with
  | String c s' => JStr (String c EmptyString) :: chars s'
  | EmptyString => []
  end.

(** [for x in v]: the values the loop visits, or the [TypeError] of a value
    that is not iterable. A [dict] iterates over its keys. *)
Definition py_iter (v : json) : pyexn + list json :=
  match v with
  | JArr items => inr items
  | JStr s => inr (chars s)
  | JObj members => inr (map (λ kv, JStr (fst kv)) members)
  | JNull | JBool _ | JNum _ => inl TypeError
  end.

(** [sep in v] for a string [sep]: substring test on a [str], membership
    on a [list], key membership on a [dict], [TypeError] otherwise. *)
Definition py_in (sep : string) (v : json) : pyexn + bool :=
  match v with
  | JStr s => inr (PyStr.contains sep s)
  | JArr items =>
      inr (existsb (λ x, match x with JStr t => String.eqb t sep | _ => false end)
             items)
  | JObj members => inr (existsb (λ kv, String.eqb (fst kv) sep) members)
  | JNull | JBool _ | JNum _ => inl TypeError
  end.

(** *** A decoder for a fragment of JSON

    [loads] follows [json.loads] on texts made of objects, arrays, strings
    (with the two-character escapes and [\u00XX]), integers and the three
    literals. Fractions, exponents, [NaN], [Infinity] and [\u] escapes
    above 0x00ff are outside this fragment. The providers below take their
    decoder as an argument; [loads] is the one used to run them on concrete
    lines. *)

Definition is_json_ws (c : ascii) : bool :=
  let n := nat_of_ascii c in
  ((n =? 32) || (n =? 9) || (n =? 10) || (n =? 13))%nat.

Fixpoint skip_ws (s : string) : string :=
  match s with
  | String c s' => if is_json_ws c then skip_ws s' else s
  | EmptyString => EmptyString
  end.

Definition hex_digit (c : ascii) : option nat :=
  let n := nat_of_ascii c in
  if ((48 <=? n) && (n <=? 57))%nat then Some (n - 48)%nat
  else if ((97 <=? n) && (n <=? 102))%nat then Some (n - 87)%nat
  else if ((65 <=? n) && (n <=? 70))%nat then Some (n - 55)%nat
  else None.

(** The character a two-character escape stands for. *)
Definition unescape (c : ascii) : option ascii :=
  if Ascii.eqb c "034" then Some "034"%char
  else if Ascii.eqb c "\" then Some "\"%char
  else if Ascii.eqb c "/" then Some "/"%char
  else if Ascii.eqb c "b" then Some "008"%char
  else if Ascii.eqb c "f" then Some "012"%char
  else if Ascii.eqb c "n" then Some "010"%char
  else if Ascii.eqb c "r" then Some "013"%char
  else if Ascii.eqb c "t" then Some "009"%char
  else None.

Definition low_code_point (h1 h2 h3 h4 : ascii) : option ascii :=
  match hex_digit h1, hex_digit h2, hex_digit h3, hex_digit h4 with
  | Some O, Some O, Some a, Some b => Some (ascii_of_nat (16 * a + b))
  | _, _, _, _ => None
  end.

(** The rest of a string literal after its opening quote: the decoded text
    and what follows the closing quote. *)
Fixpoint scan_string (s : string) : option (string * string) :=
  match s with
  | EmptyString => None
  | String c r =>
      if Ascii.eqb c "034" then Some (EmptyString, r)
      else if Ascii.eqb c "\" then
        match r with
        | String e r1 =>
            match unescape e with
            | Some d =>
                '(t, r') ← scan_string r1; Some (String d t, r')
            | None =>
                if Ascii.eqb e "u" then
                  match r1 with
                  | String h1 (String h2 (String h3 (String h4 r2))) =>
                      d ← low_code_point h1 h2 h3 h4;
                      '(t, r') ← scan_string r2; Some (String d t, r')
                  | _ => None
                  end
                else None
            end
        | EmptyString => None
        end
      else if (nat_of_ascii c <? 32)%nat then None
      else '(t, r') ← scan_string r; Some (String c t, r')
  end.

Definition digit (c : ascii) : option Z :=
  let n := nat_of_ascii c in
  if ((48 <=? n) && (n <=? 57))%nat then Some (Z.of_nat n - 48) else None.

Fixpoint scan_digits (acc : Z) (s : string) : Z * string :=
  match s with
  | String c r =>
      match digit c with
      | Some d => scan_digits (10 * acc + d) r
      | None => (acc, s)
      end
  | EmptyString => (acc, s)
  end.

(** An integer: [0] or a digit 1..9 followed by digits; a text that goes on
    with a fraction or an exponent is not of the fragment. *)
Definition scan_natural (s : string) : option (Z * string) :=
  match s with
  | String c r =>
      match digit c with
      | Some d =>
          let '(n, r') := if d =? 0 then (0, r) else scan_digits d r in
          match r' with
          | String c' _ =>
              if Ascii.eqb c' "." || Ascii.eqb c' "e" || Ascii.eqb c' "E"
              then None else Some (n, r')
          | EmptyString => Some (n, r')
          end
      | None => None
      end
  | EmptyString => None
  end.

Definition scan_number (s : string) : option (json * string) :=
  match s with
  | String c r =>
      if Ascii.eqb c "-"
      then '(n, r') ← scan_natural r; Some (JNum (- n), r')
      else '(n, r') ← scan_natural s; Some (JNum n, r')
  | EmptyString => None
  end.

Definition scan_literal (s : string) : option (json * string) :=
  if String.prefix "null" s then Some (JNull, PyStr.slice_from 4 s)
  else if String.prefix "true" s then Some (JBool true, PyStr.slice_from 4 s)
  else if String.prefix "false" s then Some (JBool false, PyStr.slice_from 5 s)
  else scan_number s.

(** One value at the head of [s]; [elements] and [members] read the inside
    of an array and of an object from their first item on. The fuel bounds
    the depth of the calls. *)
Fixpoint value (fuel : nat) (s : string) {struct fuel}
    : option (json * string) :=
  match fuel with
  | O => None
  | S fuel =>
      match s with
      | String c r =>
          if Ascii.eqb c "034" then
            '(t, r') ← scan_string r; Some (JStr t, r')
          else if Ascii.eqb c "{" then
            match skip_ws r with
            | String c' r' =>
                if Ascii.eqb c' "}" then Some (JObj [], r')
                else '(m, r'') ← members fuel (String c' r'); Some (JObj m, r'')
            | EmptyString => None
            end
          else if Ascii.eqb c "[" then
            match skip_ws r with
            | String c' r' =>
                if Ascii.eqb c' "]" then Some (JArr [], r')
                else '(l, r'') ← elements fuel (String c' r'); Some (JArr l, r'')
            | EmptyString => None
            end
          else scan_literal s
      | EmptyString => None
      end
  end
with elements (fuel : nat) (s : string) {struct fuel}
    : option (list json * string) :=
  match fuel with
  | O => None
  | S fuel =>
      '(v, r) ← value fuel s;
      match skip_ws r with
      | String c r' =>
          if Ascii.eqb c "," then
            '(l, r'') ← elements fuel (skip_ws r'); Some (v :: l, r'')
          else if Ascii.eqb c "]" then Some ([v], r')
          else None
      | EmptyString => None
      end
  end
with members (fuel : nat) (s : string) {struct fuel}
    : option (list (string * json) * string) :=
  match fuel with
  | O => None
  | S fuel =>
      match s with
      | String q r =>
          if Ascii.eqb q "034" then
            '(k, r1) ← scan_string r;
            match skip_ws r1 with
            | String c r2 =>
                if Ascii.eqb c ":" then
                  '(v, r3) ← value fuel (skip_ws r2);
                  match skip_ws r3 with
                  | String c' r4 =>
                      if Ascii.eqb c' "," then
                        '(m, r5) ← members fuel (skip_ws r4);
                        Some ((k, v) :: m, r5)
                      else if Ascii.eqb c' "}" then Some ([(k, v)], r4)
                      else None
                  | EmptyString => None
                  end
                else None
            | EmptyString => None
            end
          else None
      | EmptyString => None
      end
  end.

(** [json.loads(s)]; [None] stands for [JSONDecodeError]. *)
Definition loads (s : string) : option json :=
  '(v, r) ← value (2 * String.length s + 2) (skip_ws s);
  match skip_ws r with
  | EmptyString => Some v
  | _ => None
  end.

End Json.

(** ** Generators and the HTTP client *)

Module Gen.

(** How a generator ends once it yields nothing more: it returns (the
    consumer sees [StopIteration]) or an exception leaves it. *)
Inductive completion :=
| StopIteration
| Raise (e : Json.pyexn).

(** A generator run to its end: what it yields, in order, and how it ends. *)
Definition trace : Type := list string * completion.

(** How the body of a [for] loop inside a generator leaves: it goes on with
    the next item, it executes [return], or it raises. *)
Inductive flow :=
| Continue
| Return
| Throw (e : Json.pyexn).

(** Two pieces of a generator body in sequence: the second runs only when
    the first went on. *)
Definition and_then (a b : list string * flow) : list string * flow :=
  match snd a with
  | Continue => (fst a ++ fst b, snd b)
  | _ => a
  end.

(** A piece of a generator body yields non-empty fragments, except that
    the fragment yielded just before [return] may be empty. *)
Definition only_last_may_be_empty (r : list string * flow) : Prop :=
  match snd r with
  | Return => ∃ init piece, fst r = init ++ [piece] ∧
                            Forall (λ chunk, chunk ≠ "") init
  | Continue | Throw _ => Forall (λ chunk, chunk ≠ "") (fst r)
  end.

End Gen.

Module Http.

(** What [requests.post(url, json=payload, stream=True)] followed by
    [raise_for_status()] and the iteration over the body does. The text
    carried by a failure is [str(e)] of the [RequestException]. The body is
    delivered decoded, as [str] items. *)
Inductive response :=
| ConnectionFailed (e : string)
    (* [requests.post] raises: no connection *)
| BadStatus (e : string)
    (* [raise_for_status] raises [HTTPError] *)
| Body (items : list string) (broken : option string).
    (* the body delivers [items], one per iteration of [iter_lines] or
       [iter_content]; with [Some e] the iteration then raises, with [None]
       it ends *)

(** The client: URL and the question or prompt field of the JSON payload
    (the other fields of a payload are constants of the provider). *)
Definition client : Type := string → string → response.

(** The client of an upstream that answers every request with [r]. *)
Definition always (r : response) : client := λ _ _, r.

End Http.

(** ** Providers *)

(** *** [llm_mock.py] *)

Module MockLLM.
Import PyStr Gen.

Definition fake_answer (prompt : string) : string :=
  "[Mock] You said: " +:+ prompt +:+ LF +:+ "This is a mock response.".

(** [MockLLM.stream] *)
Definition stream (prompt : string) : trace :=
  (map (λ token, token +:+ " ") (split (fake_answer prompt)), StopIteration).

End MockLLM.

(** *** [llm_rag.py] *)

Module RagLLM.
Import PyStr Gen Http.

Definition api_url : string := "http://ai-rag-01:9000/ask_streamed".

(** The fragment yielded by the [except requests.RequestException] clause. *)
Definition error_fragment (e : string) : string :=
  "[Error fetching RAG response: " +:+ e +:+ "]".

(** The loop over [response.iter_content]: an empty chunk is skipped. *)
Fixpoint for_chunks (chunks : list string) : list string :=
  match chunks with
  | [] => []
  | chunk_bytes :: rest =>
      if is_empty chunk_bytes then for_chunks rest
      else chunk_bytes :: for_chunks rest
  end.




(** [RagLLM.stream] *)
Definition stream (post : client) (question : string) : trace :=
  match post api_url question with
  | ConnectionFailed e | BadStatus e => ([error_fragment e], StopIteration)
  | Body chunks broken =>
      (for_chunks chunks ++
         match broken with
         | Some e => [error_fragment e]
         | None => []
         end,
       StopIteration)
  end.

End RagLLM.

(** *** [llm_tinyllama.py] and [llm_llama3_1_8b.py]

    The two modules differ in their endpoint, model parameters and prompt
    template; the body of [stream] is the same text in both. *)

Module LocalModel.
Import PyStr Json Gen Http.

Definition STOP_SEQUENCE : string := LF.

Section Stream.

Variable json_loads : string → option json.
Variable post : client.
Variable LLAMA_API_URL : string.
Variable build_prompt : string → string.

(** The body of [for choice in ...] from its [text = choice.get(...)] on,
    for a choice that is a [dict]. *)
Definition on_text (text : json) : list string * flow :=
  if truthy text then
    match py_in STOP_SEQUENCE text with
    | inl e => ([], Throw e)
    | inr true =>
        (* text = text.split(STOP_SEQUENCE)[0]; yield text; return *)
        match text with
        | JStr s => ([split_head STOP_SEQUENCE s], Return)
        | _ => ([], Throw AttributeError)
        end
    | inr false =>
        (* assistant_response += text; yield text *)
        match text with
        | JStr s => ([s], Continue)
        | _ => ([], Throw TypeError)
        end
    end
  else ([], Continue).

(** [for choice in choices] *)
Fixpoint for_choices (choices : list json) : list string * flow :=
  match choices with
  | [] => ([], Continue)
  | choice :: rest =>
      and_then
        match choice with
        | JObj members => on_text (dict_get "text" (JStr "") members)
        | _ => ([], Throw AttributeError)
        end
        (for_choices rest)
  end.

(** The body of [for line in response.iter_lines(...)] *)
Definition on_line (line : string) : list string * flow :=
  if is_empty line || String.eqb (strip line) "[DONE]" then ([], Continue)
  else if String.prefix "data: " line then
    let data_str := slice_from 6 line in
    match json_loads data_str with
    | Some (JObj members) =>
        match py_iter (dict_get "choices" (JArr []) members) with
        | inr choices => for_choices choices
        | inl e => ([], Throw e)
        end
    | Some _ => ([], Throw AttributeError)
    | None => ([], Continue)
    end
  else ([], Continue).

Fixpoint for_lines (lines : list string) : list string * flow :=
  match lines with
  | [] => ([], Continue)
  | line :: rest => and_then (on_line line) (for_lines rest)
  end.

(** A line of the protocol that delivers the chunk [text]: the prefix
    [data: ] and then a JSON object whose [choices] hold one choice, a
    [dict] with the string [text] under the key [text]. *)
Definition carries (line text : string) : Prop :=
  ∃ data_str members choice,
    line = "data: " +:+ data_str ∧
    json_loads data_str = Some (JObj members) ∧
    dict_get "choices" (JArr []) members = JArr [JObj choice] ∧
    dict_get "text" (JStr "") choice = JStr text.

(** The lines that the loop passes over: the empty line, the line that is
    [[DONE]] once stripped, the line without the prefix [data: ], and the
    line whose JSON text does not parse. *)
Definition skipped (line : string) : bool :=
  is_empty line
  || String.eqb (strip line) "[DONE]"
  || negb (String.prefix "data: " line)
  || match json_loads (slice_from 6 line) with
     | None => true
     | Some _ => false
     end.

(** A line of the protocol whose one choice holds the JSON value [v] under
    the key [text]. *)
Definition carries_value (line : string) (v : json) : Prop :=
  ∃ data_str members choice,
    line = "data: " +:+ data_str ∧
    json_loads data_str = Some (JObj members) ∧
    dict_get "choices" (JArr []) members = JArr [JObj choice] ∧
    dict_get "text" (JStr "") choice = v.

(** [stream]. A [RequestException] is caught and logged: the generator
    then ends as if the body had ended. When the loop has left by [return]
    or by another exception, a later failure of the body is never read. *)
Definition stream (prompt : string) : trace :=
  let full_prompt := build_prompt prompt in
  match post LLAMA_API_URL full_prompt with
  | ConnectionFailed _ | BadStatus _ => ([], StopIteration)
  | Body lines _ =>
      let '(out, f) := for_lines lines in
      (out, match f with
            | Throw e => Raise e
            | Continue | Return => StopIteration
            end)
  end.

End Stream.

End LocalModel.

Module TinyLlamaLLM.
Import PyStr.

Definition LLAMA_API_URL : string := "http://ai-llm-01:8081/v1/completions".

Definition build_prompt (question : string) : string :=
  LF +:+ "You are a helpful assistant." +:+ LF +:+
  "Answer the following question in exactly one sentence only. " +:+
  "Your sentence should be concise but informative, providing key context if relevant. " +:+
  "Do not describe yourself, do not repeat the question, do not ask questions, and do not write more than one period. " +:+
  "After the first period, stop writing immediately." +:+ LF +:+ LF +:+
  "Question: " +:+ question +:+ LF +:+
  "Answer (one informative sentence only):".

Definition stream (json_loads : string → option Json.json)
    (post : Http.client) : string → Gen.trace :=
  LocalModel.stream json_loads post LLAMA_API_URL build_prompt.

End TinyLlamaLLM.

Module Llama3_1_8bLLM.
Import PyStr.

Definition LLAMA_API_URL : string := "http://ai-llm-01:8082/v1/completions".

Definition build_prompt (question : string) : string :=
  "SYSTEM: You are a helpful assistant." +:+ LF +:+
  "SYSTEM: Answer questions in exactly one sentence. " +:+
  "Your answer should be concise but informative, providing key context if relevant. " +:+
  "Do not describe yourself, do not repeat phrases, do not add extra information beyond the topic, and do not ask questions. " +:+
  "End your answer after the first period." +:+ LF +:+ LF +:+
  "USER: " +:+ question +:+ LF +:+
  "ASSISTANT: (one informative sentence only)".

Definition stream (json_loads : string → option Json.json)
    (post : Http.client) : string → Gen.trace :=
  LocalModel.stream json_loads post LLAMA_API_URL build_prompt.

End Llama3_1_8bLLM.

(** ** [backend/app.py] *)

Module App.
Import PyStr Json Gen Http.

(** A chat message, the dict [{"role": ..., "content": ...}]. *)
Record message := Message { role : string; content : string }.

(** The address of a list object. *)
Definition loc : Type := nat.

(** The module's globals. [CHAT_SESSIONS] holds, per session id, the
    address of that session's list of messages; [heap] holds the lists. *)
Record world := World {
  CHAT_SESSIONS : gmap string loc;
  heap : gmap loc (list message);
  LLM_MODE : string
}.

(** The state of a freshly started process. *)
Definition initial : world :=
  {| CHAT_SESSIONS := ∅; heap := ∅; LLM_MODE := "mock" |}.

(** The contents of the list object at [l]. *)
Definition deref (l : loc) (w : world) : list message := heap w !!! l.

(** [[]]: a new, empty list object. *)
Definition new_list (w : world) : loc * world :=
  let l := fresh (dom (heap w)) in
  (l, {| CHAT_SESSIONS := CHAT_SESSIONS w;
         heap := <[l := []]> (heap w);
         LLM_MODE := LLM_MODE w |}).

(** [lst.append(m)] on the list object at [l]. *)
Definition list_append (l : loc) (m : message) (w : world) : world :=
  {| CHAT_SESSIONS := CHAT_SESSIONS w;
     heap := <[l := deref l w ++ [m]]> (heap w);
     LLM_MODE := LLM_MODE w |}.

(** [CHAT_SESSIONS[sid] = l] *)
Definition set_session (sid : string) (l : loc) (w : world) : world :=
  {| CHAT_SESSIONS := <[sid := l]> (CHAT_SESSIONS w);
     heap := heap w;
     LLM_MODE := LLM_MODE w |}.

(** [get_user_messages], for the session id [sid] of the request. *)
Definition get_user_messages (sid : string) (w : world) : loc * world :=
  match CHAT_SESSIONS w !! sid with
  | Some l => (l, w)
  | None =>
      let '(l, w1) := new_list w in
      (l, set_session sid l w1)
  end.

(** The conversation of a session as a reader of the store sees it: the
    list [CHAT_SESSIONS[sid]], empty for a session not yet in the map. *)
Definition conversation (sid : string) (w : world) : list message :=
  match CHAT_SESSIONS w !! sid with
  | Some l => deref l w
  | None => []
  end.

(** The lists of the sessions are kept apart: every session's list exists
    in the heap and no two sessions point to one list. *)
Definition separate (w : world) : Prop :=
  (∀ sid l, CHAT_SESSIONS w !! sid = Some l → l ∈ dom (heap w)) ∧
  (∀ sid1 sid2 l, CHAT_SESSIONS w !! sid1 = Some l →
                  CHAT_SESSIONS w !! sid2 = Some l → sid1 = sid2).

(** The provider classes. *)
Inductive llm := RagLLM | TinyLlamaLLM | Llama3_1_8bLLM | MockLLM.

(** [get_llm] *)
Definition get_llm (mode : string) : llm :=
  if String.eqb mode "rag" then RagLLM
  else if String.eqb mode "tinyllama" then TinyLlamaLLM
  else if String.eqb mode "llama3_1_8b" then Llama3_1_8bLLM
  else MockLLM.

(** The generator object made by [generate()]: the list captured by the
    closure, the local [response_text], and what [llm.stream(prompt)] has
    still to give. *)
Record generator := Generator {
  user_messages : loc;
  response_text : string;
  chunks : trace
}.

(** What a view function returns. *)
Inductive reply :=
| Jsonify (body : json)
| Response (g : generator)
| InternalError (e : pyexn).

(** The list literal of [set_mode]. *)
Definition MODES : list string := ["mock"; "rag"; "tinyllama"; "llama3_1_8b"].

(** [mode in MODES]: a value that is not a string equals none of them. *)
Definition known_mode (mode : json) : option string :=
  match mode with
  | JStr s => if existsb (String.eqb s) MODES then Some s else None
  | _ => None
  end.

(** [set_mode], for the JSON body [data] of the request. *)
Definition set_mode (data : json) (w : world) : reply * world :=
  match data with
  | JObj fields =>
      let mode := dict_get "mode" JNull fields in
      let w' :=
        match known_mode mode with
        | Some s => {| CHAT_SESSIONS := CHAT_SESSIONS w;
                       heap := heap w;
                       LLM_MODE := s |}
        | None => w
        end in
      (Jsonify (JObj [("status", JStr "ok"); ("mode", JStr (LLM_MODE w'))]),
       w')
  | _ => (InternalError AttributeError, w)
  end.

(** [clear_chat] *)
Definition clear_chat (sid : string) (w : world) : reply * world :=
  let '(l, w1) := new_list w in
  (Jsonify (JObj [("status", JStr "cleared")]), set_session sid l w1).


(** The arguments that [index] hands to [render_template]. *)
Record page := Page {
  template : string;
  messages : list message;
  llm_mode : string
}.

(** [index] *)
Definition index (sid : string) (w : world) : page * world :=
  let '(l, w1) := get_user_messages sid w in
  ({| template := "app.html";
      messages := deref l w1;
      llm_mode := LLM_MODE w1 |},
   w1).

(** The requests [requests] to [set_mode], served one after the other. *)
Definition set_modes (requests : list json) (w : world) : world :=
  fold_left (λ w data, snd (set_mode data w)) requests w.

(** The name that a request to [set_mode] selects, if it selects one. *)
Definition selected (data : json) : option string :=
  match data with
  | JObj fields =>
      match dict_get "mode" JNull fields with
      | JStr name =>
          if bool_decide (name ∈ ["mock"; "rag"; "tinyllama"; "llama3_1_8b"])
          then Some name else None
      | _ => None
      end
  | _ => None
  end.

Section Relay.

Variable json_loads : string → option json.
Variable post : client.

(** [llm.stream(prompt)] by the class of [llm]. *)
Definition llm_stream (p : llm) (prompt : string) : trace :=
  match p with
  | RagLLM => RagLLM.stream post prompt
  | TinyLlamaLLM => TinyLlamaLLM.stream json_loads post prompt
  | Llama3_1_8bLLM => Llama3_1_8bLLM.stream json_loads post prompt
  | MockLLM => MockLLM.stream prompt
  end.

(** [generate()]: the generator object of the closure over [llm],
    [prompt] and [user_messages], before its first [next]. *)
Definition generate (llm : llm) (prompt : string) (messages : loc)
    : generator :=
  {| user_messages := messages;
     response_text := "";
     chunks := llm_stream llm prompt |}.

(** [send_message], for the session id [sid] and the JSON body [data]. *)
Definition send_message (sid : string) (data : json) (w : world)
    : reply * world :=
  match data with
  | JObj fields =>
      match dict_get "prompt" (JStr "") fields with
      | JStr raw =>
          let prompt := strip raw in
          let '(messages, w1) := get_user_messages sid w in
          if is_empty prompt
          then (Jsonify (JObj [("status", JStr "empty")]), w1)
          else
            let w2 := list_append messages (Message "user" prompt) w1 in
            let llm := get_llm (LLM_MODE w2) in
            (Response (generate llm prompt messages), w2)
      | _ => (InternalError AttributeError, w)
      end
  | _ => (InternalError AttributeError, w)
  end.

End Relay.

(** One [next()] on the generator of [generate]. *)
Inductive step :=
| Yield (chunk : string) (g : generator)
| Done (c : completion).

Definition next (g : generator) (w : world) : step * world :=
  match chunks g with
  | (chunk :: rest, c) =>
      (* response_text += chunk; yield chunk *)
      (Yield chunk {| user_messages := user_messages g;
                      response_text := response_text g +:+ chunk;
                      chunks := (rest, c) |},
       w)
  | ([], StopIteration) =>
      (Done StopIteration,
       list_append (user_messages g)
         (Message "assistant" (response_text g)) w)
  | ([], Raise e) => (Done (Raise e), w)
  end.

(** Where a consumer stands after some calls of [next]. *)
Inductive status :=
| Suspended (g : generator)
| Ended (c : completion).

(** At most [n] calls of [next]: the chunks received, in order. *)
Fixpoint run (n : nat) (g : generator) (w : world)
    : list string * status * world :=
  match n with
  | O => ([], Suspended g, w)
  | S n' =>
      match next g w with
      | (Yield chunk g', w') =>
          let '(out, s, w'') := run n' g' w' in (chunk :: out, s, w'')
      | (Done c, w') => ([], Ended c, w')
      end
  end.

(** The consumer that reads the response to its end. *)
Definition exhaust (g : generator) (w : world)
    : list string * status * world :=
  run (S (length (fst (chunks g)))) g w.

End App.

(** ** [utils/logger_setup.py] *)

Module LoggerSetup.
Import PyStr.



(** A [RotatingFileHandler] with its formatter and filters. *)
Record handler := Handler {
  filename : string;
  maxBytes : Z;
  backupCount : Z;
  encoding : string;
  format : string;
  filters : list string
}.

(** A [logging.Logger]. *)
Record logger := Logger {
  handlers : list handler;
  level : Z;
  propagate : bool
}.


(** The loggers that [logging.getLogger] has made, by name. *)
Definition registry : Type := gmap string logger.




End LoggerSetup.

(** ** Concrete upstreams and requests *)

Module Scenarios.
Import PyStr Json Http.

(** An upstream that cannot be reached. *)
Definition offline : client := always (ConnectionFailed "down").

(** The JSON text [{"choices":[{"text":"..."}]}] with [escaped] between
    the quotes of the text, as it stands on the wire (a line feed inside
    the text is the two characters backslash and [n]). *)
Definition chunk_data (escaped : string) : string :=
  "{" +:+ DQ +:+ "choices" +:+ DQ +:+ ":[{" +:+ DQ +:+ "text" +:+ DQ
  +:+ ":" +:+ DQ +:+ escaped +:+ DQ +:+ "}]}".

(** The line [data: {"choices":[{"text":"..."}]}]. *)
Definition chunk_line (escaped : string) : string :=
  "data: " +:+ chunk_data escaped.

(** The line [data: {"choices":[{"text":...}]}] with the JSON text
    [value] in the place of the text. *)
Definition value_line (value : string) : string :=
  "data: {" +:+ DQ +:+ "choices" +:+ DQ +:+ ":[{" +:+ DQ +:+ "text" +:+ DQ
  +:+ ":" +:+ value +:+ "}]}".

(** The request body [{"prompt": p}]. *)
Definition prompt_body (p : string) : json := JObj [("prompt", JStr p)].

(** The state of a process in which [mode] was selected first. *)
Definition started_in (mode : string) : App.world :=
  snd (App.set_mode (JObj [("mode", JStr mode)]) App.initial).

(** A state in which session [b] holds one message, in the list at
    address 0. *)
Definition one_session : App.world :=
  {| App.CHAT_SESSIONS := {["b" := 0%nat]};
     App.heap := {[0%nat := [App.Message "user" "earlier"]]};
     App.LLM_MODE := "mock" |}.

End Scenarios.

(** * Properties *)

(** ** The embedding on sample values

    Each line is the value Python gives for the expression in its
    comment. *)

Module Samples.
Import PyStr Json Gen Http Scenarios.

(* "  hi there \n".strip() == "hi there" *)
Example strip_sample : strip ("  hi there " +:+ LF) = "hi there".
Proof. reflexivity. Qed.

(* " \t\n ".strip() == "" *)
Example strip_blank_sample :
  strip (" " +:+ String "009" "" +:+ LF +:+ " ") = "".
Proof. reflexivity. Qed.

(* "a  b\nc ".split() == ["a", "b", "c"] *)
Example split_sample : split ("a  b" +:+ LF +:+ "c ") = ["a"; "b"; "c"].
Proof. reflexivity. Qed.

(* " sky\nExtra\nMore".split("\n")[0] == " sky" *)
Example split_head_sample :
  split_head LF (" sky" +:+ LF +:+ "Extra" +:+ LF +:+ "More") = " sky".
Proof. reflexivity. Qed.

(* ("\n" in "The") is False, ("\n" in " sky\nExtra") is True *)
Example contains_sample :
  contains LF "The" = false ∧ contains LF (" sky" +:+ LF +:+ "Extra") = true.
Proof. split; reflexivity. Qed.

(* {"a": 1, "b": 2, "a": 3}.get("a", 0) == 3, .get("c", 0) == 0 *)
Example dict_get_sample :
  let d := [("a", JNum 1); ("b", JNum 2); ("a", JNum 3)] in
  dict_get "a" (JNum 0) d = JNum 3 ∧ dict_get "c" (JNum 0) d = JNum 0.
Proof. split; reflexivity. Qed.

(* json.loads of the first line of the scenario, after "data: " *)
Example loads_sample :
  loads (chunk_data "The") =
    Some (JObj [("choices", JArr [JObj [("text", JStr "The")]])]).
Proof. reflexivity. Qed.

(* json.loads('[1, -20, true, null, {"k": "a\u0041\n"}] ') *)
Example loads_values_sample :
  loads ("[1, -20, true, null, {" +:+ DQ +:+ "k" +:+ DQ +:+ ": "
         +:+ DQ +:+ "a\u0041\n" +:+ DQ +:+ "}] ") =
    Some (JArr [JNum 1; JNum (-20); JBool true; JNull;
                JObj [("k", JStr ("aA" +:+ LF))]]).
Proof. reflexivity. Qed.

(* json.loads raises JSONDecodeError on each of these *)
Example loads_error_sample :
  loads "[DONE]" = None ∧ loads "{" = None ∧ loads "[1,]" = None ∧
  loads "01" = None ∧ loads "" = None.
Proof. repeat split; reflexivity. Qed.

(* A line whose JSON text is not an object: data_json.get raises. *)
Example not_an_object_sample :
  LocalModel.on_line loads "data: [1]" = ([], Throw AttributeError).
Proof. reflexivity. Qed.

(* "choices" is null: the for loop raises TypeError. *)
Example choices_null_sample :
  LocalModel.on_line loads
    ("data: {" +:+ DQ +:+ "choices" +:+ DQ +:+ ":null}") =
    ([], Throw TypeError).
Proof. reflexivity. Qed.

(* The end marker, an empty line, a line without the prefix and a line
   whose JSON text does not parse are skipped. *)
Example skipped_lines_sample :
  LocalModel.for_lines loads ["[DONE]"; ""; "event: ping"; "data: {"] =
    ([], Continue).
Proof. reflexivity. Qed.

End Samples.

(** ** Strings *)

Module PyStrFacts.
Import PyStr.

Lemma append_cons c s t : String c s +:+ t = String c (s +:+ t).
Proof. reflexivity. Qed.

Lemma append_nil_r s : s +:+ "" = s.
Proof. induction s as [|c s IH]; [done|]. by rewrite append_cons, IH. Qed.

Lemma append_assoc s t u : (s +:+ t) +:+ u = s +:+ (t +:+ u).
Proof.
  induction s as [|c s IH]; [done|]. by rewrite !append_cons, IH.
Qed.

Lemma join_cons x xs : join (x :: xs) = x +:+ join xs.
Proof.
  unfold join. destruct xs as [|y ys]; simpl.
  - by rewrite append_nil_r.
  - done.
Qed.

Lemma join_app xs ys : join (xs ++ ys) = join xs +:+ join ys.
Proof.
  induction xs as [|x xs IH]; [done|].
  rewrite <- app_comm_cons, !join_cons, IH. by rewrite append_assoc.
Qed.

Lemma join_snoc xs x : join (xs ++ [x]) = join xs +:+ x.
Proof. rewrite join_app. f_equal. Qed.

Lemma is_empty_true s : is_empty s = true ↔ s = "".
Proof. by destruct s. Qed.

Lemma is_empty_false s : is_empty s = false ↔ s ≠ "".
Proof. by destruct s. Qed.

(** [rstrip] keeps a first character that is not white space. *)
Lemma rstrip_head c s :
  isspace c = false → ∃ r, rstrip (String c s) = String c r.
Proof.
  intros Hc. simpl. destruct (rstrip s); rewrite ?Hc; eauto.
Qed.

(** A line that starts with [data: ] is not the [[DONE]] marker. *)
Lemma strip_data_line d : String.eqb (strip ("data: " +:+ d)) "[DONE]" = false.
Proof.
  apply String.eqb_neq. unfold strip.
  change ("data: " +:+ d) with (String "d" ("ata: " +:+ d)).
  change (lstrip (String "d" ("ata: " +:+ d)))
    with (String "d" ("ata: " +:+ d)).
  destruct (rstrip_head "d" ("ata: " +:+ d)) as [r ->]; [done|].
  discriminate.
Qed.

Lemma prefix_data_line d : String.prefix "data: " ("data: " +:+ d) = true.
Proof. by destruct d. Qed.

Lemma slice_data_line d : slice_from 6 ("data: " +:+ d) = d.
Proof. reflexivity. Qed.

(** The stop marker is one character: it occurs in [s] exactly when that
    character does. *)
Lemma prefix_LF_cons c s : String.prefix LF (String c s) = Ascii.eqb "010" c.
Proof.
  unfold LF. cbn [String.prefix].
  destruct (ascii_dec "010" c) as [<-|Hne].
  - rewrite Ascii.eqb_refl. by destruct s.
  - apply Ascii.eqb_neq in Hne. by rewrite Hne.
Qed.

Lemma contains_LF_cons c s :
  contains LF (String c s) = Ascii.eqb "010" c || contains LF s.
Proof.
  change (contains LF (String c s))
    with (String.prefix LF (String c s) || contains LF s).
  by rewrite prefix_LF_cons.
Qed.

Lemma split_head_LF_cons c s :
  split_head LF (String c s) =
  if Ascii.eqb "010" c then "" else String c (split_head LF s).
Proof.
  change (split_head LF (String c s))
    with (if String.prefix LF (String c s) then ""
          else String c (split_head LF s)).
  by rewrite prefix_LF_cons.
Qed.

Lemma contains_LF_middle a b : contains LF (a +:+ LF +:+ b) = true.
Proof.
  induction a as [|c a IH].
  - change ("" +:+ LF +:+ b) with (String "010" b).
    by rewrite contains_LF_cons, Ascii.eqb_refl.
  - rewrite append_cons, contains_LF_cons, IH. apply orb_true_r.
Qed.

(** Cutting at the first marker gives back the text before it. *)
Lemma split_head_LF a b :
  contains LF a = false → split_head LF (a +:+ LF +:+ b) = a.
Proof.
  induction a as [|c a IH]; intros Ha.
  - change ("" +:+ LF +:+ b) with (String "010" b).
    by rewrite split_head_LF_cons, Ascii.eqb_refl.
  - rewrite contains_LF_cons in Ha. apply orb_false_iff in Ha as [Hc Ha].
    rewrite append_cons, split_head_LF_cons, Hc. f_equal. by apply IH.
Qed.

(** Without a marker nothing is cut. *)
Lemma split_head_none s : contains LF s = false → split_head LF s = s.
Proof.
  induction s as [|c s IH]; intros Hs; [done|].
  rewrite contains_LF_cons in Hs. apply orb_false_iff in Hs as [Hc Hs].
  rewrite split_head_LF_cons, Hc. f_equal. by apply IH.
Qed.

End PyStrFacts.

(** ** The generator of [generate] *)

Module RelayFacts.
Import PyStr PyStrFacts Json Gen Http App.

(** What [next] does to the generator that yields. *)
Lemma next_yield g w chunk g' w' :
  next g w = (Yield chunk g', w') →
  w' = w ∧
  user_messages g' = user_messages g ∧
  response_text g' = response_text g +:+ chunk ∧
  fst (chunks g) = chunk :: fst (chunks g') ∧
  snd (chunks g') = snd (chunks g).
Proof.
  unfold next. destruct (chunks g) as [[|x rest] c] eqn:Hg.
  - destruct c; discriminate.
  - intros [= <- <- <-]. simpl. done.
Qed.

(** [run] in closed form: while chunks remain the consumer holds a
    suspended generator whose accumulator has grown by what was yielded;
    one call more ends the generator. *)
Lemma run_closed_form n g w :
  run n g w =
  if decide (n ≤ length (fst (chunks g)))%nat
  then (take n (fst (chunks g)),
        Suspended {| user_messages := user_messages g;
                     response_text :=
                       response_text g +:+ join (take n (fst (chunks g)));
                     chunks := (drop n (fst (chunks g)), snd (chunks g)) |},
        w)
  else (fst (chunks g),
        Ended (snd (chunks g)),
        match snd (chunks g) with
        | StopIteration =>
            list_append (user_messages g)
              (Message "assistant"
                 (response_text g +:+ join (fst (chunks g)))) w
        | Raise _ => w
        end).
Proof.
  revert g w. induction n as [|n IH]; intros [l acc [fs c]] w;
    cbn [run chunks fst snd user_messages response_text].
  - rewrite decide_True by lia.
    by rewrite take_0, drop_0, append_nil_r.
  - destruct fs as [|chunk rest]; unfold next;
      cbn [chunks fst snd user_messages response_text length].
    + rewrite decide_False by lia.
      destruct c; by rewrite ?append_nil_r.
    + rewrite IH. cbn [chunks fst snd user_messages response_text].
      destruct (decide (n ≤ length rest)%nat).
      * rewrite decide_True by lia.
        cbn [take drop]. by rewrite join_cons, append_assoc.
      * rewrite decide_False by lia.
        by rewrite join_cons, append_assoc.
Qed.

(** Reading to the end always ends the generator. *)
Lemma exhaust_closed_form g w :
  exhaust g w =
  (fst (chunks g),
   Ended (snd (chunks g)),
   match snd (chunks g) with
   | StopIteration =>
       list_append (user_messages g)
         (Message "assistant" (response_text g +:+ join (fst (chunks g)))) w
   | Raise _ => w
   end).
Proof. unfold exhaust. rewrite run_closed_form. by rewrite decide_False by lia. Qed.

(** C1. For every finite sequence [fs] of fragments that the provider's
    stream yields (whichever way it ends, [c]): after any number [n] of
    chunks forwarded by the generator of [send_message], the accumulator
    [response_text] is the concatenation, in order, of exactly the chunks
    forwarded so far; every single [next] that forwards a chunk extends the
    accumulator by that chunk; and the consumer that reads to the end has
    received exactly [fs], the text committed as the assistant message
    being their concatenation. *)
Theorem C1_accumulator_is_forwarded_text
    (fs : list string) (c : completion) (l : loc) (w : world) :
  let g := {| user_messages := l; response_text := ""; chunks := (fs, c) |} in
  (∀ n, (n ≤ length fs)%nat →
        ∃ g', run n g w = (take n fs, Suspended g', w) ∧
              response_text g' = join (take n fs)) ∧
  (∀ g1 w1 chunk g2 w2,
      next g1 w1 = (Yield chunk g2, w2) →
      response_text g2 = response_text g1 +:+ chunk) ∧
  exhaust g w =
    (fs, Ended c,
     match c with
     | StopIteration => list_append l (Message "assistant" (join fs)) w
     | Raise _ => w
     end).
Proof.
  intros g. split; [|split].
  - intros n Hn. rewrite run_closed_form. subst g. simpl.
    rewrite decide_True by done. eexists. split; [reflexivity|]. done.
  - intros g1 w1 chunk g2 w2 Hnext.
    by destruct (next_yield _ _ _ _ _ Hnext) as (_ & _ & ? & _).
  - rewrite exhaust_closed_form. subst g. simpl. done.
Qed.

End RelayFacts.

(** ** The session store *)

Module StoreFacts.
Import PyStr PyStrFacts Json Gen Http App.

Lemma deref_list_append l m w :
  deref l (list_append l m w) = deref l w ++ [m].
Proof. unfold deref, list_append. simpl. apply lookup_total_insert_eq. Qed.

Lemma conversation_list_append sid l m w :
  CHAT_SESSIONS w !! sid = Some l →
  conversation sid (list_append l m w) = conversation sid w ++ [m].
Proof.
  intros Hl. unfold conversation.
  change (CHAT_SESSIONS (list_append l m w)) with (CHAT_SESSIONS w).
  rewrite Hl. apply deref_list_append.
Qed.

(** A new list object is empty, and the session it is stored under reads
    as empty. *)
Lemma conversation_new_list sid w :
  let '(l, w1) := new_list w in
  deref l (set_session sid l w1) = [] ∧
  CHAT_SESSIONS (set_session sid l w1) !! sid = Some l ∧
  conversation sid (set_session sid l w1) = [].
Proof.
  unfold new_list, conversation, set_session, deref. simpl.
  rewrite lookup_insert_eq. simpl.
  by rewrite lookup_total_insert_eq.
Qed.

(** [get_user_messages] returns the list the session map points to; the
    list holds what a reader of the store saw as the conversation. *)
Lemma get_user_messages_spec sid w l w1 :
  get_user_messages sid w = (l, w1) →
  CHAT_SESSIONS w1 !! sid = Some l ∧
  deref l w1 = conversation sid w ∧
  conversation sid w1 = conversation sid w ∧
  LLM_MODE w1 = LLM_MODE w.
Proof.
  unfold get_user_messages.
  destruct (CHAT_SESSIONS w !! sid) as [l0|] eqn:Hsid.
  - intros [= <- <-]. unfold conversation. by rewrite Hsid.
  - pose proof (conversation_new_list sid w) as Hnew.
    destruct (new_list w) as [l1 w2] eqn:Hw2.
    intros [= <- <-]. destruct Hnew as (Hd & Hs & Hc).
    assert (conversation sid w = []) as ->
      by (unfold conversation; by rewrite Hsid).
    repeat split; try done.
    unfold new_list in Hw2. by injection Hw2 as <- <-.
Qed.

(** C9. For every session identifier and every state of the store,
    whatever the conversation held before: after [clear_chat] for that
    session, reading the session's conversation with [get_user_messages]
    returns an empty list (the list [clear_chat] has just stored, no new
    one), and a reader of the store sees an empty conversation. *)
Theorem C9_clear_then_read_is_empty (sid : string) (w : world) :
  let w1 := snd (clear_chat sid w) in
  ∃ l, get_user_messages sid w1 = (l, w1) ∧
       deref l w1 = [] ∧
       conversation sid w1 = [].
Proof.
  intros w1. subst w1. unfold clear_chat.
  pose proof (conversation_new_list sid w) as Hnew.
  destruct (new_list w) as [l w2]. destruct Hnew as (Hd & Hs & Hc).
  exists l. cbn [snd]. unfold get_user_messages. rewrite Hs. done.
Qed.

Section SendMessage.

Variable json_loads : string → option json.
Variable post : client.

(** C6. For every request whose prompt (the [prompt] field of the body,
    the empty string when the field is missing) is empty after [strip]:
    [send_message] answers [{"status": "empty"}]; the answer is a JSON
    body, not a streamed response, so no generator exists and no provider
    is called; the store is what the lookup of the session's list left,
    whatever the HTTP client and the JSON decoder are; and the session's
    conversation reads as it did before: nothing was appended. *)
Theorem C6_blank_prompt_is_refused
    (sid : string) (fields : list (string * json)) (raw : string)
    (w : world) :
  dict_get "prompt" (JStr "") fields = JStr raw →
  strip raw = "" →
  send_message json_loads post sid (JObj fields) w =
    (Jsonify (JObj [("status", JStr "empty")]),
     snd (get_user_messages sid w)) ∧
  conversation sid (snd (send_message json_loads post sid (JObj fields) w)) =
    conversation sid w ∧
  LLM_MODE (snd (send_message json_loads post sid (JObj fields) w)) =
    LLM_MODE w.
Proof.
  intros Hprompt Hblank.
  assert (send_message json_loads post sid (JObj fields) w =
    (Jsonify (JObj [("status", JStr "empty")]),
     snd (get_user_messages sid w))) as Hsend.
  { unfold send_message. rewrite Hprompt, Hblank.
    by destruct (get_user_messages sid w). }
  rewrite Hsend. cbn [snd].
  destruct (get_user_messages sid w) as [l w1] eqn:Hget.
  apply get_user_messages_spec in Hget as (_ & _ & Hc & Hm). done.
Qed.

(** [send_message] for a prompt that is not blank, in one equation. *)
Lemma send_message_response sid fields raw w :
  dict_get "prompt" (JStr "") fields = JStr raw →
  strip raw ≠ "" →
  send_message json_loads post sid (JObj fields) w =
    (Response {| user_messages := fst (get_user_messages sid w);
                 response_text := "";
                 chunks := llm_stream json_loads post
                             (get_llm (LLM_MODE w)) (strip raw) |},
     list_append (fst (get_user_messages sid w))
       (Message "user" (strip raw)) (snd (get_user_messages sid w))).
Proof.
  intros Hprompt Hfull. apply is_empty_false in Hfull.
  unfold send_message. rewrite Hprompt, Hfull.
  destruct (get_user_messages sid w) as [l w0] eqn:Hget.
  apply get_user_messages_spec in Hget as (_ & _ & _ & Hm).
  cbn [fst snd].
  change (LLM_MODE (list_append l (Message "user" (strip raw)) w0))
    with (LLM_MODE w0). by rewrite Hm.
Qed.

(** A turn: the request of a prompt that is not blank stores the stripped
    prompt as a user message and answers with a generator that has not
    run; reading the generator to the end, when the provider's stream ends
    by itself, stores its whole output as one assistant message. *)
Lemma turn (sid : string) (fields : list (string * json)) (raw : string)
    (w : world) :
  dict_get "prompt" (JStr "") fields = JStr raw →
  strip raw ≠ "" →
  ∃ l w1,
    send_message json_loads post sid (JObj fields) w =
      (Response {| user_messages := l;
                   response_text := "";
                   chunks := llm_stream json_loads post
                               (get_llm (LLM_MODE w)) (strip raw) |},
       w1) ∧
    conversation sid w1 = conversation sid w ++ [Message "user" (strip raw)] ∧
    ∀ fs c, exhaust {| user_messages := l; response_text := "";
                       chunks := (fs, c) |} w1 =
            (fs, Ended c,
             match c with
             | StopIteration =>
                 list_append l (Message "assistant" (join fs)) w1
             | Raise _ => w1
             end) ∧
            conversation sid
              (list_append l (Message "assistant" (join fs)) w1) =
            conversation sid w ++
              [Message "user" (strip raw); Message "assistant" (join fs)].
Proof.
  intros Hprompt Hfull.
  rewrite (send_message_response sid fields raw w Hprompt Hfull).
  destruct (get_user_messages sid w) as [l w0] eqn:Hget.
  apply get_user_messages_spec in Hget as (Hs & Hd & Hc & Hm).
  cbn [fst snd].
  exists l, (list_append l (Message "user" (strip raw)) w0).
  assert (conversation sid (list_append l (Message "user" (strip raw)) w0) =
          conversation sid w ++ [Message "user" (strip raw)]) as Huser.
  { by rewrite (conversation_list_append sid l), Hc. }
  split; [done|]. split; [done|].
  intros fs c. split.
  - by rewrite RelayFacts.exhaust_closed_form.
  - rewrite (conversation_list_append sid l) by done.
    by rewrite Huser, <- app_assoc.
Qed.

(** C3 (amended). For every request whose prompt is not empty after
    [strip]: [send_message] appends to the session's conversation, before
    anything is streamed, a user message whose content is the prompt with
    its leading and trailing white space stripped, and answers with the
    generator over the stream of the active provider; when that stream
    ends by itself after the fragments [fs], reading the response to its
    end forwards [fs] and appends exactly one assistant message whose
    content is their concatenation, so that the conversation ends with the
    user message and the assistant message in that order; with no
    fragment at all the assistant message is appended with empty
    content. *)
Theorem C3_turn_appends_user_then_assistant
    (sid : string) (fields : list (string * json)) (raw : string)
    (w : world) :
  dict_get "prompt" (JStr "") fields = JStr raw →
  strip raw ≠ "" →
  ∃ g w1,
    send_message json_loads post sid (JObj fields) w = (Response g, w1) ∧
    conversation sid w1 = conversation sid w ++ [Message "user" (strip raw)] ∧
    response_text g = "" ∧
    chunks g = llm_stream json_loads post (get_llm (LLM_MODE w)) (strip raw) ∧
    (∀ fs, chunks g = (fs, StopIteration) →
       ∃ w2, exhaust g w1 = (fs, Ended StopIteration, w2) ∧
             conversation sid w2 =
               conversation sid w ++
                 [Message "user" (strip raw);
                  Message "assistant" (join fs)]) ∧
    (chunks g = ([], StopIteration) →
       ∃ w2, exhaust g w1 = ([], Ended StopIteration, w2) ∧
             conversation sid w2 =
               conversation sid w ++
                 [Message "user" (strip raw); Message "assistant" ""]).
Proof.
  intros Hprompt Hfull.
  destruct (turn sid fields raw w Hprompt Hfull) as (l & w1 & Hsend & Hu & Hex).
  eexists _, w1. split; [exact Hsend|]. split; [exact Hu|].
  cbn [response_text chunks]. split; [done|]. split; [done|].
  assert (∀ fs,
    llm_stream json_loads post (get_llm (LLM_MODE w)) (strip raw) =
      (fs, StopIteration) →
    ∃ w2, exhaust {| user_messages := l; response_text := "";
                     chunks := llm_stream json_loads post
                                 (get_llm (LLM_MODE w)) (strip raw) |} w1 =
            (fs, Ended StopIteration, w2) ∧
          conversation sid w2 =
            conversation sid w ++
              [Message "user" (strip raw); Message "assistant" (join fs)])
    as Hall.
  { intros fs ->. destruct (Hex fs StopIteration) as [He Hc]. eauto. }
  split; [exact Hall|]. intros Hnil. apply (Hall [] Hnil).
Qed.

(** C4 (amended). The prompt [hi] sent while the mock provider is the
    active one: the response forwards the nine tokens of the mock answer,
    each followed by one space, and the conversation then ends with the
    assistant message whose content is these chunks concatenated; the line
    feed of the source string is gone, [split] having cut at it, and the
    text ends with a space. *)
Theorem C4_mock_turn_on_hi (sid : string) (w : world) :
  get_llm (LLM_MODE w) = MockLLM →
  ∃ g w1 w2,
    send_message json_loads post sid (JObj [("prompt", JStr "hi")]) w =
      (Response g, w1) ∧
    exhaust g w1 =
      (map (λ token, token +:+ " ")
         ["[Mock]"; "You"; "said:"; "hi"; "This"; "is"; "a"; "mock";
          "response."],
       Ended StopIteration, w2) ∧
    last (conversation sid w2) =
      Some (Message "assistant"
              "[Mock] You said: hi This is a mock response. ").
Proof.
  intros Hmock.
  destruct (turn sid [("prompt", JStr "hi")] "hi" w) as (l & w1 & Hsend & _ & Hex);
    [reflexivity | discriminate |].
  rewrite Hmock in Hsend.
  eexists _, w1, _. split; [exact Hsend|].
  change (llm_stream json_loads post MockLLM (strip "hi"))
    with (map (λ token, token +:+ " ")
            ["[Mock]"; "You"; "said:"; "hi"; "This"; "is"; "a"; "mock";
             "response."], StopIteration).
  destruct (Hex (map (λ token, token +:+ " ")
            ["[Mock]"; "You"; "said:"; "hi"; "This"; "is"; "a"; "mock";
             "response."]) StopIteration) as [He Hc].
  split; [exact He|]. rewrite Hc, last_app. reflexivity.
Qed.

End SendMessage.

(** A whitespace-only prompt in the initial state, in session [s]. *)
Lemma C6_blank_prompt_witness :
  let fields := [("prompt", JStr "   ")] in
  let offline := always (ConnectionFailed "down") in
  dict_get "prompt" (JStr "") fields = JStr "   " ∧
  strip "   " = "" ∧
  send_message loads offline "s" (JObj fields) initial =
    (Jsonify (JObj [("status", JStr "empty")]),
     snd (get_user_messages "s" initial)).
Proof.
  split; [reflexivity|]. split; [reflexivity|].
  apply (C6_blank_prompt_is_refused loads (always (ConnectionFailed "down"))
           "s" [("prompt", JStr "   ")] "   " initial);
    reflexivity.
Defined.

End StoreFacts.

(** ** Turns on concrete requests *)

Module TurnScenarios.
Import PyStr PyStrFacts Json Gen Http App StoreFacts Scenarios.

(** The prompt [  hi ] in session [s] of a fresh process. *)
Lemma C3_turn_witness :
  let fields := [("prompt", JStr "  hi ")] in
  dict_get "prompt" (JStr "") fields = JStr "  hi " ∧
  strip "  hi " ≠ "" ∧
  ∃ g w1,
    send_message loads offline "s" (JObj fields) initial = (Response g, w1) ∧
    conversation "s" w1 = [Message "user" "hi"] ∧
    ∀ fs, chunks g = (fs, StopIteration) →
      ∃ w2, exhaust g w1 = (fs, Ended StopIteration, w2) ∧
            conversation "s" w2 =
              [Message "user" "hi"; Message "assistant" (join fs)].
Proof.
  split; [reflexivity|]. split; [discriminate|].
  destruct (C3_turn_appends_user_then_assistant loads offline
              "s" [("prompt", JStr "  hi ")] "  hi " initial)
    as (g & w1 & Hsend & Hu & _ & _ & Hall & _);
    [reflexivity | discriminate |].
  exists g, w1. split; [exact Hsend|]. split; [exact Hu|]. exact Hall.
Defined.

(** C3 as the specification words it, with the original prompt as the
    stored content, fails on the prompt [ hi] (one leading space), which
    is not blank: the user message stored holds [hi]. *)
Lemma C3_original_prompt_is_not_stored :
  ∃ g w1 out w2,
    strip " hi" ≠ "" ∧
    send_message loads offline "s" (JObj [("prompt", JStr " hi")]) initial =
      (Response g, w1) ∧
    exhaust g w1 = (out, Ended StopIteration, w2) ∧
    conversation "s" w2 =
      [Message "user" "hi"; Message "assistant" (join out)] ∧
    conversation "s" w2 ≠
      [Message "user" " hi"; Message "assistant" (join out)].
Proof.
  eexists _, _, _, _.
  split; [discriminate|].
  split; [vm_compute; reflexivity|].
  split; [vm_compute; reflexivity|].
  split; [vm_compute; reflexivity|].
  vm_compute. discriminate.
Qed.

(** The mock provider is the active one in a fresh process. *)
Lemma C4_mock_turn_witness :
  get_llm (LLM_MODE initial) = MockLLM ∧
  ∃ g w1 w2,
    send_message loads offline "s" (JObj [("prompt", JStr "hi")]) initial =
      (Response g, w1) ∧
    exhaust g w1 =
      (["[Mock] "; "You "; "said: "; "hi "; "This "; "is "; "a "; "mock ";
        "response. "],
       Ended StopIteration, w2) ∧
    last (conversation "s" w2) =
      Some (Message "assistant"
              "[Mock] You said: hi This is a mock response. ").
Proof.
  split; [reflexivity|].
  apply (C4_mock_turn_on_hi loads offline "s" initial). reflexivity.
Defined.

(** C4 as the specification words it fails on its final entry: the
    content with the line feed kept, and a line feed at the end, is not
    what the turn stores. *)
Lemma C4_line_feed_is_not_preserved :
  ∃ g w1 out w2 m,
    send_message loads offline "s" (JObj [("prompt", JStr "hi")]) initial =
      (Response g, w1) ∧
    exhaust g w1 = (out, Ended StopIteration, w2) ∧
    last (conversation "s" w2) = Some m ∧
    role m = "assistant" ∧
    content m ≠
      "[Mock] You said: hi" +:+ LF +:+ "This is a mock response." +:+ LF.
Proof.
  eexists _, _, _, _, _.
  split; [vm_compute; reflexivity|].
  split; [vm_compute; reflexivity|].
  split; [vm_compute; reflexivity|].
  split; [reflexivity|].
  vm_compute. discriminate.
Qed.

End TurnScenarios.

(** ** The mode registry *)

Module RegistryFacts.
Import PyStr Json Gen Http App.

(** The membership test of [set_mode] accepts exactly the strings of the
    list. *)
Lemma known_mode_Some mode s :
  known_mode mode = Some s ↔ mode = JStr s ∧ s ∈ MODES.
Proof.
  unfold known_mode. destruct mode as [| | |t| |]; try (split; [done|by intros [? _]]).
  destruct (existsb (String.eqb t) MODES) eqn:Hin.
  - apply existsb_exists in Hin as (x & Hx & Heq).
    apply String.eqb_eq in Heq as <-. apply list_elem_of_In in Hx.
    split; [by intros [= <-] | by intros [[= <-] _]].
  - split; [done|]. intros [[= <-] Hs].
    apply list_elem_of_In in Hs.
    assert (existsb (String.eqb t) MODES = true) as Hex
      by (apply existsb_exists; exists t; by rewrite String.eqb_refl).
    congruence.
Qed.

Lemma known_mode_None mode :
  known_mode mode = None ↔ ∀ s, mode = JStr s → s ∉ MODES.
Proof.
  split.
  - intros Hnone s -> Hs.
    assert (known_mode (JStr s) = Some s) as H by by apply known_mode_Some.
    congruence.
  - intros Hout. destruct (known_mode mode) as [s|] eqn:Hk; [|done].
    apply known_mode_Some in Hk as [-> Hs]. by destruct (Hout s).
Qed.

(** The active mode of a fresh process is one of the list, and [set_mode]
    keeps it so. *)
Lemma initial_mode_known : LLM_MODE initial ∈ MODES.
Proof. unfold MODES. simpl. set_solver. Qed.

Lemma set_mode_keeps_mode_known data w :
  LLM_MODE w ∈ MODES → LLM_MODE (snd (set_mode data w)) ∈ MODES.
Proof.
  intros Hw. unfold set_mode. destruct data; try done. simpl.
  destruct (known_mode _) as [s|] eqn:Hk; [|done].
  by apply known_mode_Some in Hk as [_ Hs].
Qed.

(** C5. For every request body and every state, with [mode] the value of
    the body's [mode] field ([None] when the field is missing): when
    [mode] is one of the four names [mock], [rag], [tinyllama],
    [llama3_1_8b], [set_mode] makes it the active mode, changes nothing
    else and returns it; when [mode] is any other value, the state is left
    as it was and the mode returned is the one that was active. *)
Theorem C5_set_mode_accepts_the_four_names
    (fields : list (string * json)) (w : world) :
  let mode := dict_get "mode" JNull fields in
  (∀ name, mode = JStr name →
     name ∈ ["mock"; "rag"; "tinyllama"; "llama3_1_8b"] →
     set_mode (JObj fields) w =
       (Jsonify (JObj [("status", JStr "ok"); ("mode", JStr name)]),
        {| CHAT_SESSIONS := CHAT_SESSIONS w;
           heap := heap w;
           LLM_MODE := name |})) ∧
  ((∀ name, mode = JStr name →
      name ∉ ["mock"; "rag"; "tinyllama"; "llama3_1_8b"]) →
     set_mode (JObj fields) w =
       (Jsonify (JObj [("status", JStr "ok"); ("mode", JStr (LLM_MODE w))]),
        w)).
Proof.
  intros mode. split.
  - intros name Hmode Hin. unfold set_mode. fold mode.
    assert (known_mode mode = Some name) as -> by by apply known_mode_Some.
    done.
  - intros Hout. unfold set_mode. fold mode.
    assert (known_mode mode = None) as -> by by apply known_mode_None.
    done.
Qed.

(** C10. For every request body and every state, accepted or not, the
    answer of [set_mode] is the JSON object with status [ok] and the mode
    that is active after the call. When the mode active before the call is
    one of the four names, as it is in every state the process reaches,
    the request was accepted exactly when the returned mode is the
    requested value: nothing else in the answer tells the two cases
    apart. *)
Theorem C10_set_mode_always_answers_ok
    (fields : list (string * json)) (w : world) :
  let mode := dict_get "mode" JNull fields in
  let w' := snd (set_mode (JObj fields) w) in
  fst (set_mode (JObj fields) w) =
    Jsonify (JObj [("status", JStr "ok"); ("mode", JStr (LLM_MODE w'))]) ∧
  (LLM_MODE w ∈ ["mock"; "rag"; "tinyllama"; "llama3_1_8b"] →
   ((∃ name, mode = JStr name ∧
             name ∈ ["mock"; "rag"; "tinyllama"; "llama3_1_8b"]) ↔
    JStr (LLM_MODE w') = mode)).
Proof.
  intros mode w'. subst w'. unfold set_mode. fold mode. cbn [fst snd].
  split; [done|]. intros Hw.
  destruct (known_mode mode) as [s|] eqn:Hk.
  - apply known_mode_Some in Hk as [Hm Hs]. simpl. split; [done|eauto].
  - split.
    + intros (name & Hm & Hin).
      assert (known_mode mode = Some name) by by apply known_mode_Some.
      congruence.
    + intros Heq. exists (LLM_MODE w). done.
Qed.

End RegistryFacts.

(** ** The local-model providers *)

Module LocalModelFacts.
Import PyStr PyStrFacts Json Gen Http LocalModel Scenarios.

Section Stream.

Variable json_loads : string → option json.

Lemma and_then_continue a : and_then a ([], Continue) = a.
Proof.
  destruct a as [out f]. unfold and_then. simpl.
  destruct f; by rewrite ?app_nil_r.
Qed.

(** What the loop body does with a chunk that is a string. *)
Lemma on_text_empty : on_text (JStr "") = ([], Continue).
Proof. reflexivity. Qed.

Lemma on_text_plain t :
  t ≠ "" → contains LF t = false → on_text (JStr t) = ([t], Continue).
Proof.
  intros Ht Hlf. unfold on_text, truthy, py_in, STOP_SEQUENCE.
  apply is_empty_false in Ht. by rewrite Ht, Hlf.
Qed.

Lemma on_text_stop a b :
  contains LF a = false → on_text (JStr (a +:+ LF +:+ b)) = ([a], Return).
Proof.
  intros Ha. unfold on_text, truthy, py_in, STOP_SEQUENCE.
  assert (is_empty (a +:+ LF +:+ b) = false) as ->
    by (destruct a; reflexivity).
  cbn [negb]. by rewrite contains_LF_middle, split_head_LF.
Qed.

(** A line that carries a chunk is handled as its text is. *)
Lemma on_line_carries line t :
  carries json_loads line t → on_line json_loads line = on_text (JStr t).
Proof.
  intros (d & members & choice & -> & Hloads & Hchoices & Htext).
  unfold on_line.
  assert (is_empty ("data: " +:+ d) = false) as -> by reflexivity.
  rewrite strip_data_line, prefix_data_line, slice_data_line, Hloads, Hchoices.
  cbn [orb py_iter for_choices]. by rewrite Htext, and_then_continue.
Qed.

(** Chunks without the marker are yielded in order, the empty ones
    skipped, and the loop goes on. *)
Lemma for_lines_plain lines texts :
  Forall2 (carries json_loads) lines texts →
  Forall (λ t, contains LF t = false) texts →
  for_lines json_loads lines = (filter (λ t, t ≠ "") texts, Continue).
Proof.
  induction 1 as [|line t lines texts Hc _ IH]; intros Hlf; [done|].
  apply Forall_cons in Hlf as [Ht Hts].
  cbn [for_lines]. rewrite (on_line_carries _ _ Hc), (IH Hts).
  destruct (decide (t = "")) as [->|Hne].
  - rewrite on_text_empty. by rewrite filter_cons_False by naive_solver.
  - rewrite (on_text_plain _ Hne Ht). by rewrite filter_cons_True by done.
Qed.

Lemma for_lines_app xs ys :
  for_lines json_loads (xs ++ ys) =
  and_then (for_lines json_loads xs) (for_lines json_loads ys).
Proof.
  induction xs as [|x xs IH]; simpl.
  - by destruct (for_lines json_loads ys).
  - rewrite IH. destruct (on_line json_loads x) as [o1 f1].
    destruct (for_lines json_loads xs) as [o2 f2].
    destruct (for_lines json_loads ys) as [o3 f3].
    unfold and_then. simpl.
    destruct f1, f2; simpl; by rewrite ?app_assoc.
Qed.

(** The loop over the lines up to and including the one that holds the
    first marker; what comes after that line has no part in it. *)
Lemma for_lines_stop lines texts line_k a b later :
  Forall2 (carries json_loads) lines texts →
  Forall (λ t, contains LF t = false) texts →
  carries json_loads line_k (a +:+ LF +:+ b) →
  contains LF a = false →
  for_lines json_loads (lines ++ line_k :: later) =
    (filter (λ t, t ≠ "") texts ++ [a], Return).
Proof.
  intros Hlines Htexts Hk Ha.
  rewrite for_lines_app, (for_lines_plain _ _ Hlines Htexts).
  cbn [for_lines]. rewrite (on_line_carries _ _ Hk), (on_text_stop _ _ Ha).
  reflexivity.
Qed.

End Stream.

(** C2. For the two local-model providers and any JSON decoder: let the
    body of the upstream response deliver lines that carry the chunks
    [texts], none of which contains a line feed, then a line that carries
    the chunk [a ++ LF ++ b] with no line feed in [a] (so the first marker
    of the stream is the one after [a]), then any lines [later], and
    possibly break after them. The stream then yields the chunks [texts]
    unchanged and in order (a chunk whose text is empty yields nothing),
    then the piece [a] of the chunk cut at its first marker, and ends
    there: the result does not depend on [later], no line of which is
    read. In particular the lines with the texts [The] and [ sky\nExtra]
    yield [The] then [ sky], and nothing of [Extra]. *)
Theorem C2_stop_marker_truncates_and_ends :
  (∀ (json_loads : string → option json)
     (lines texts : list string) (line_k a b : string)
     (later : list string) (broken : option string) (prompt : string),
     Forall2 (carries json_loads) lines texts →
     Forall (λ t, contains LF t = false) texts →
     carries json_loads line_k (a +:+ LF +:+ b) →
     contains LF a = false →
     let upstream := always (Body (lines ++ line_k :: later) broken) in
     let forwarded := filter (λ t, t ≠ "") texts ++ [a] in
     TinyLlamaLLM.stream json_loads upstream prompt =
       (forwarded, StopIteration) ∧
     Llama3_1_8bLLM.stream json_loads upstream prompt =
       (forwarded, StopIteration)) ∧
  (let upstream :=
     always (Body [chunk_line "The"; chunk_line " sky\nExtra"] None) in
   ∀ prompt,
     TinyLlamaLLM.stream loads upstream prompt =
       (["The"; " sky"], StopIteration) ∧
     Llama3_1_8bLLM.stream loads upstream prompt =
       (["The"; " sky"], StopIteration)).
Proof.
  split.
  - intros json_loads lines texts line_k a b later broken prompt
      Hlines Htexts Hk Ha upstream forwarded.
    unfold TinyLlamaLLM.stream, Llama3_1_8bLLM.stream, LocalModel.stream.
    subst upstream forwarded. unfold always.
    by rewrite (for_lines_stop json_loads _ _ _ _ _ later Hlines Htexts Hk Ha).
  - intros upstream prompt. split; reflexivity.
Qed.

End LocalModelFacts.

(** ** Runs of the providers on concrete upstreams *)

Module ProviderScenarios.
Import PyStr PyStrFacts Json Gen Http LocalModel Scenarios.

Lemma carries_chunk_line_The : carries loads (chunk_line "The") "The".
Proof.
  exists (chunk_data "The"), [("choices", JArr [JObj [("text", JStr "The")]])],
    [("text", JStr "The")].
  repeat split; reflexivity.
Defined.

Lemma carries_chunk_line_sky :
  carries loads (chunk_line " sky\nExtra") (" sky" +:+ LF +:+ "Extra").
Proof.
  exists (chunk_data " sky\nExtra"),
    [("choices", JArr [JObj [("text", JStr (" sky" +:+ LF +:+ "Extra"))]])],
    [("text", JStr (" sky" +:+ LF +:+ "Extra"))].
  repeat split; reflexivity.
Defined.

(** The scenario of the two lines, followed by a line that would raise
    [AttributeError] if it were read (its JSON text is a number) and by a
    broken connection. *)
Lemma C2_the_sky_witness :
  let later := ["data: 5"] in
  let upstream :=
    always (Body ([chunk_line "The"] ++ chunk_line " sky\nExtra" :: later)
              (Some "connection reset")) in
  Forall2 (carries loads) [chunk_line "The"] ["The"] ∧
  Forall (λ t, contains LF t = false) ["The"] ∧
  carries loads (chunk_line " sky\nExtra") (" sky" +:+ LF +:+ "Extra") ∧
  contains LF " sky" = false ∧
  TinyLlamaLLM.stream loads upstream "Why is the sky blue?" =
    (["The"; " sky"], StopIteration) ∧
  Llama3_1_8bLLM.stream loads upstream "Why is the sky blue?" =
    (["The"; " sky"], StopIteration).
Proof.
  assert (Forall2 (carries loads) [chunk_line "The"] ["The"]) as Hlines
    by (repeat constructor; exact carries_chunk_line_The).
  assert (Forall (λ t, contains LF t = false) ["The"]) as Htexts
    by (repeat constructor).
  split; [exact Hlines|]. split; [exact Htexts|].
  split; [exact carries_chunk_line_sky|]. split; [reflexivity|].
  exact (proj1 LocalModelFacts.C2_stop_marker_truncates_and_ends
           loads [chunk_line "The"] ["The"] (chunk_line " sky\nExtra")
           " sky" "Extra" ["data: 5"] (Some "connection reset")
           "Why is the sky blue?"
           Hlines Htexts carries_chunk_line_sky eq_refl).
Defined.

(** The line after the marker does raise when it is read. *)
Lemma number_line_raises prompt :
  TinyLlamaLLM.stream loads (always (Body ["data: 5"] None)) prompt =
    ([], Raise AttributeError).
Proof. reflexivity. Qed.

(** C7, at the input on which the code forwards an empty fragment: one
    line whose chunk text starts with the stop marker, [\nExtra]. The text
    is not empty, so it passes the test [if text:]; cut at the marker it is
    empty, and it is yielded as it is. Both local-model providers yield the
    empty string, and the response of [send_message] forwards it. *)
Theorem C7_truncated_piece_is_forwarded_empty :
  let upstream := always (Body [chunk_line "\nExtra"] None) in
  TinyLlamaLLM.stream loads upstream "q" = ([""], StopIteration) ∧
  Llama3_1_8bLLM.stream loads upstream "q" = ([""], StopIteration) ∧
  ∃ g w1 w2,
    App.send_message loads upstream "s" (prompt_body "q")
      (started_in "tinyllama") = (App.Response g, w1) ∧
    App.exhaust g w1 = ([""], App.Ended StopIteration, w2).
Proof.
  intros upstream. split; [reflexivity|]. split; [reflexivity|].
  eexists _, _, _. split; vm_compute; reflexivity.
Qed.

End ProviderScenarios.

(** ** Request failures *)

Module FailureFacts.
Import PyStr PyStrFacts Json Gen Http Scenarios.

Lemma prefix_append e b : String.prefix e (e +:+ b) = true.
Proof.
  induction e as [|c e IH].
  - by destruct b.
  - rewrite append_cons. cbn [String.prefix].
    by destruct (ascii_dec c c).
Qed.

(** [e in a + e + b] *)
Lemma contains_middle e a b : contains e (a +:+ e +:+ b) = true.
Proof.
  induction a as [|c a IH].
  - change ("" +:+ e +:+ b) with (e +:+ b).
    destruct (e +:+ b) eqn:Heb; cbn [contains]; rewrite <- Heb;
      by rewrite prefix_append.
  - rewrite append_cons. cbn [contains]. rewrite IH. apply orb_true_r.
Qed.

(** C8. A request that fails with the description [e]. The
    retrieval-augmented provider: when no connection is made or the status
    is not a success, its stream yields the one fragment built from [e]
    and ends; when the body breaks after the chunks [items], it yields
    what it yields for these chunks on a body that ends, then the one
    fragment built from [e], and ends; that fragment contains [e]. The two
    local-model providers, on the same failures: their stream yields
    nothing when no connection is made or the status is not a success, and
    on a body that breaks after [items] it is the stream of the body that
    ends after [items]: no fragment is added for the failure. *)
Theorem C8_rag_reports_failure_local_models_end_silently
    (json_loads : string → option json) (e : string) (items : list string)
    (question : string) :
  (RagLLM.stream (always (ConnectionFailed e)) question =
     ([RagLLM.error_fragment e], StopIteration) ∧
   RagLLM.stream (always (BadStatus e)) question =
     ([RagLLM.error_fragment e], StopIteration) ∧
   RagLLM.stream (always (Body items (Some e))) question =
     (fst (RagLLM.stream (always (Body items None)) question)
        ++ [RagLLM.error_fragment e],
      StopIteration) ∧
   contains e (RagLLM.error_fragment e) = true) ∧
  (TinyLlamaLLM.stream json_loads (always (ConnectionFailed e)) question =
     ([], StopIteration) ∧
   TinyLlamaLLM.stream json_loads (always (BadStatus e)) question =
     ([], StopIteration) ∧
   TinyLlamaLLM.stream json_loads (always (Body items (Some e))) question =
     TinyLlamaLLM.stream json_loads (always (Body items None)) question) ∧
  (Llama3_1_8bLLM.stream json_loads (always (ConnectionFailed e)) question =
     ([], StopIteration) ∧
   Llama3_1_8bLLM.stream json_loads (always (BadStatus e)) question =
     ([], StopIteration) ∧
   Llama3_1_8bLLM.stream json_loads (always (Body items (Some e))) question =
     Llama3_1_8bLLM.stream json_loads (always (Body items None)) question).
Proof.
  split; [|split].
  - repeat split.
    + unfold RagLLM.stream, always. cbn [fst]. by rewrite app_nil_r.
    + apply contains_middle.
  - repeat split.
  - repeat split.
Qed.

End FailureFacts.

(** ** Which fragments can be empty *)

Module FragmentFacts.
Import PyStr PyStrFacts Json Gen Http LocalModel.

Lemma append_space_nonempty token : token +:+ " " ≠ "".
Proof. by destruct token. Qed.

(** The mock provider never yields an empty fragment: every chunk ends
    with the space added to its token. *)
Theorem mock_fragments_nonempty (prompt : string) :
  Forall (λ chunk, chunk ≠ "") (fst (MockLLM.stream prompt)).
Proof.
  unfold MockLLM.stream. cbn [fst]. apply Forall_fmap, Forall_true.
  intros token. apply append_space_nonempty.
Qed.

Lemma for_chunks_nonempty chunks :
  Forall (λ chunk, chunk ≠ "") (RagLLM.for_chunks chunks).
Proof.
  induction chunks as [|c chunks IH]; [constructor|].
  cbn [RagLLM.for_chunks]. destruct (is_empty c) eqn:Hc; [done|].
  constructor; [by apply is_empty_false | done].
Qed.

(** The retrieval-augmented provider never yields an empty fragment,
    whatever the upstream does: empty chunks are skipped and the fragment
    that reports a failure starts with a bracket. *)
Theorem rag_fragments_nonempty (post : client) (question : string) :
  Forall (λ chunk, chunk ≠ "") (fst (RagLLM.stream post question)).
Proof.
  unfold RagLLM.stream.
  destruct (post RagLLM.api_url question) as [e|e|chunks [e|]]; cbn [fst].
  - by repeat constructor.
  - by repeat constructor.
  - apply Forall_app. split; [apply for_chunks_nonempty | by repeat constructor].
  - rewrite app_nil_r. apply for_chunks_nonempty.
Qed.

Lemma and_then_only_last a b :
  only_last_may_be_empty a → only_last_may_be_empty b →
  only_last_may_be_empty (and_then a b).
Proof.
  destruct a as [o1 f1], b as [o2 f2].
  unfold only_last_may_be_empty, and_then. cbn [fst snd].
  destruct f1; try done. cbn [fst snd]. intros H1 H2.
  destruct f2.
  - by apply Forall_app.
  - destruct H2 as (init & piece & -> & Hinit).
    exists (o1 ++ init), piece. rewrite app_assoc.
    split; [done | by apply Forall_app].
  - by apply Forall_app.
Qed.

Section Stream.

Variable json_loads : string → option json.

Lemma on_text_only_last text : only_last_may_be_empty (on_text text).
Proof.
  unfold on_text, only_last_may_be_empty.
  destruct (truthy text) eqn:Htruthy; [|by constructor].
  destruct (py_in STOP_SEQUENCE text) as [e|[|]]; [by constructor| |].
  - destruct text; try by constructor.
    cbn [fst snd]. by exists [], (split_head STOP_SEQUENCE s).
  - destruct text; try by constructor.
    cbn [fst snd]. constructor; [|constructor].
    simpl in Htruthy. apply negb_true_iff in Htruthy.
    by apply is_empty_false.
Qed.

Lemma for_choices_only_last choices :
  only_last_may_be_empty (for_choices choices).
Proof.
  induction choices as [|choice rest IH]; [by constructor|].
  cbn [for_choices]. apply and_then_only_last; [|done].
  destruct choice; try by constructor. apply on_text_only_last.
Qed.

Lemma on_line_only_last line :
  only_last_may_be_empty (on_line json_loads line).
Proof.
  unfold on_line.
  destruct (_ || _); [by constructor|].
  destruct (String.prefix _ _); [|by constructor].
  destruct (json_loads _) as [[| | | | |members]|]; try by constructor.
  destruct (py_iter _); [by constructor|]. apply for_choices_only_last.
Qed.

Lemma for_lines_only_last lines :
  only_last_may_be_empty (for_lines json_loads lines).
Proof.
  induction lines as [|line rest IH]; [by constructor|].
  cbn [for_lines]. by apply and_then_only_last; [apply on_line_only_last|].
Qed.

End Stream.

Lemma removelast_snoc {A} (l : list A) x : removelast (l ++ [x]) = l.
Proof. rewrite removelast_app by done. simpl. apply app_nil_r. Qed.

Lemma Forall_removelast {A} (P : A → Prop) l :
  Forall P l → Forall P (removelast l).
Proof.
  induction 1 as [|x l Hx Hl IH]; [constructor|].
  destruct l; [constructor|]. cbn [removelast] in *. by constructor.
Qed.

(** In the stream of a local-model provider every fragment but the last
    one is non-empty, for any decoder and upstream: an empty fragment can
    only be the piece cut at the stop marker, after which the stream
    ends. *)
Theorem local_model_fragments_nonempty_but_last
    (json_loads : string → option json) (post : client) (prompt : string) :
  Forall (λ chunk, chunk ≠ "")
    (removelast (fst (TinyLlamaLLM.stream json_loads post prompt))) ∧
  Forall (λ chunk, chunk ≠ "")
    (removelast (fst (Llama3_1_8bLLM.stream json_loads post prompt))).
Proof.
  assert (∀ url build, Forall (λ chunk, chunk ≠ "")
            (removelast (fst (LocalModel.stream json_loads post url build
                                prompt)))) as Hall.
  { intros url build. unfold LocalModel.stream.
    destruct (post url (build prompt)) as [e|e|lines broken];
      [constructor..|].
    pose proof (for_lines_only_last json_loads lines) as Hok.
    destruct (for_lines json_loads lines) as [out f].
    unfold only_last_may_be_empty in Hok. cbn [fst snd] in *.
    destruct f; [by apply Forall_removelast| |by apply Forall_removelast].
    destruct Hok as (init & piece & -> & Hinit).
    by rewrite removelast_snoc. }
  split; apply Hall.
Qed.

End FragmentFacts.

(** ** A history cleared while its response is being streamed *)

Module AliasingFacts.
Import PyStr PyStrFacts Json Gen Http App StoreFacts Scenarios.

(** A new list object is not one of the lists that exist. *)
Lemma new_list_fresh w l :
  l ∈ dom (heap w) → fst (new_list w) ≠ l.
Proof.
  intros Hl Heq. unfold new_list in Heq. cbn [fst] in Heq. subst l.
  by apply is_fresh in Hl.
Qed.

Lemma list_append_dom l m w : l ∈ dom (heap (list_append l m w)).
Proof. unfold list_append. cbn [heap]. rewrite dom_insert_L. set_solver. Qed.

Section SendMessage.

Variable json_loads : string → option json.
Variable post : client.

(** When [clear_chat] runs for the session after [send_message] has
    answered and before the response is read, the generator still holds
    the list it captured: read to the end, it appends the assistant
    message to that list, which the session map no longer points to, and
    the session's conversation stays empty. *)
Theorem clear_chat_before_the_stream_ends_orphans_the_reply
    (sid : string) (fields : list (string * json)) (raw : string)
    (w : world) :
  dict_get "prompt" (JStr "") fields = JStr raw →
  strip raw ≠ "" →
  ∃ g w1,
    send_message json_loads post sid (JObj fields) w = (Response g, w1) ∧
    ∀ fs, chunks g = (fs, StopIteration) →
      ∃ w3, exhaust g (snd (clear_chat sid w1)) =
              (fs, Ended StopIteration, w3) ∧
            conversation sid w3 = [] ∧
            deref (user_messages g) w3 =
              conversation sid w ++
                [Message "user" (strip raw); Message "assistant" (join fs)].
Proof.
  intros Hprompt Hfull.
  rewrite (send_message_response json_loads post sid fields raw w
             Hprompt Hfull).
  destruct (get_user_messages sid w) as [l w0] eqn:Hget.
  apply get_user_messages_spec in Hget as (_ & Hd & _ & _).
  cbn [fst snd]. eexists _, _. split; [reflexivity|].
  cbn [chunks user_messages]. intros fs Hfs.
  rewrite RelayFacts.exhaust_closed_form.
  cbn [chunks user_messages response_text fst snd]. rewrite Hfs. cbn [fst snd].
  eexists. split; [reflexivity|].
  set (w1 := list_append l (Message "user" (strip raw)) w0).
  pose proof (new_list_fresh w1 l (list_append_dom _ _ _)) as Hfresh.
  unfold clear_chat. destruct (new_list w1) as [l' w2] eqn:Hnew.
  cbn [fst snd] in *.
  assert (heap w2 = <[l' := []]> (heap w1)) as Hheap.
  { unfold new_list in Hnew. by injection Hnew as <- <-. }
  split.
  - unfold conversation, list_append, set_session, deref.
    cbn [CHAT_SESSIONS heap]. rewrite lookup_insert_eq.
    rewrite lookup_total_insert_ne by done.
    by rewrite Hheap, lookup_total_insert_eq.
  - rewrite deref_list_append. unfold deref, set_session. cbn [heap].
    rewrite Hheap, lookup_total_insert_ne by done.
    fold (deref l w1). unfold w1. rewrite deref_list_append, Hd.
    by rewrite <- app_assoc.
Qed.

End SendMessage.

(** The prompt [hi] in session [s] of a fresh process, the mock provider. *)
Lemma clear_chat_before_the_stream_ends_witness :
  dict_get "prompt" (JStr "") [("prompt", JStr "hi")] = JStr "hi" ∧
  strip "hi" ≠ "" ∧
  ∃ g w1,
    send_message loads offline "s" (prompt_body "hi") initial =
      (Response g, w1) ∧
    ∀ fs, chunks g = (fs, StopIteration) →
      ∃ w3, exhaust g (snd (clear_chat "s" w1)) =
              (fs, Ended StopIteration, w3) ∧
            conversation "s" w3 = [] ∧
            deref (user_messages g) w3 =
              [Message "user" "hi"; Message "assistant" (join fs)].
Proof.
  split; [reflexivity|]. split; [discriminate|].
  exact (clear_chat_before_the_stream_ends_orphans_the_reply loads offline
           "s" [("prompt", JStr "hi")] "hi" initial eq_refl
           (λ H, eq_ind "hi" (λ s, match s with "" => False | _ => True end)
                   I "" H)).
Defined.

End AliasingFacts.

(** ** Sessions do not see each other *)

Module IsolationFacts.
Import PyStr PyStrFacts Json Gen Http App StoreFacts AliasingFacts Scenarios.

Lemma separate_initial : separate initial.
Proof.
  split; [intros sid l H | intros sid1 sid2 l H _];
    cbn [initial CHAT_SESSIONS] in H; by rewrite lookup_empty in H.
Qed.

(** Storing a new list under a session keeps the lists apart and leaves
    the other sessions as they were. *)
Lemma store_new_list_frame sid w :
  separate w →
  let w1 := set_session sid (fst (new_list w)) (snd (new_list w)) in
  separate w1 ∧
  ∀ sid', sid' ≠ sid → conversation sid' w1 = conversation sid' w.
Proof.
  intros [Hwf Hinj] w1. subst w1.
  unfold new_list, set_session, conversation, deref, separate.
  cbn [fst snd CHAT_SESSIONS heap].
  set (l := fresh (dom (heap w))).
  assert (l ∉ dom (heap w)) as Hfresh by apply is_fresh.
  split; [split|].
  - intros s l0. rewrite dom_insert_L.
    destruct (decide (s = sid)) as [->|Hne].
    + rewrite lookup_insert_eq. intros [= <-]. set_solver.
    + rewrite lookup_insert_ne by done. intros H%Hwf. set_solver.
  - intros s1 s2 l0.
    destruct (decide (s1 = sid)) as [->|H1], (decide (s2 = sid)) as [->|H2];
      rewrite ?lookup_insert_eq, ?lookup_insert_ne by done; try done.
    + intros [= <-] H%Hwf. done.
    + intros H%Hwf [= <-]. done.
    + apply Hinj.
  - intros sid' Hne. rewrite lookup_insert_ne by done.
    destruct (CHAT_SESSIONS w !! sid') as [l0|] eqn:Hl0; [|done].
    apply Hwf in Hl0. rewrite lookup_total_insert_ne; [done|].
    by intros <-.
Qed.

Lemma get_user_messages_frame sid w :
  separate w →
  separate (snd (get_user_messages sid w)) ∧
  ∀ sid', sid' ≠ sid →
    conversation sid' (snd (get_user_messages sid w)) = conversation sid' w.
Proof.
  intros Hsep. unfold get_user_messages.
  destruct (CHAT_SESSIONS w !! sid) as [l|] eqn:Hl; [done|].
  pose proof (store_new_list_frame sid w Hsep) as Hnew.
  by destruct (new_list w).
Qed.

(** Appending to the list of one session keeps the lists apart and leaves
    the other sessions as they were. *)
Lemma list_append_frame sid l m w :
  separate w → CHAT_SESSIONS w !! sid = Some l →
  separate (list_append l m w) ∧
  ∀ sid', sid' ≠ sid →
    conversation sid' (list_append l m w) = conversation sid' w.
Proof.
  intros [Hwf Hinj] Hl. unfold list_append, separate, conversation, deref.
  cbn [CHAT_SESSIONS heap]. split; [split|].
  - intros s l0 H%Hwf. rewrite dom_insert_L. set_solver.
  - done.
  - intros sid' Hne.
    destruct (CHAT_SESSIONS w !! sid') as [l0|] eqn:Hl0; [|done].
    rewrite lookup_total_insert_ne; [done|].
    intros <-. by destruct Hne; apply (Hinj sid' sid l).
Qed.

Section SendMessage.

Variable json_loads : string → option json.
Variable post : client.

(** In a state where the lists of the sessions are apart: a whole turn of
    one session (the request, then the response read to its end, however
    the provider's stream ends) and [clear_chat] for that session leave
    the conversation of every other session as it was, and the lists stay
    apart. *)
Theorem sessions_are_isolated
    (sid sid' : string) (fields : list (string * json)) (raw : string)
    (w : world) :
  separate w →
  sid' ≠ sid →
  dict_get "prompt" (JStr "") fields = JStr raw →
  (∀ r w1, send_message json_loads post sid (JObj fields) w = (r, w1) →
     separate w1 ∧
     conversation sid' w1 = conversation sid' w ∧
     ∀ g out st w2, r = Response g → exhaust g w1 = (out, st, w2) →
       separate w2 ∧ conversation sid' w2 = conversation sid' w) ∧
  separate (snd (clear_chat sid w)) ∧
  conversation sid' (snd (clear_chat sid w)) = conversation sid' w.
Proof.
  intros Hsep Hne Hprompt. split.
  - intros r w1.
    destruct (decide (strip raw = "")) as [Hblank|Hfull].
    + unfold send_message. rewrite Hprompt, Hblank.
      destruct (get_user_messages_frame sid w Hsep) as [Hs0 Hc0].
      destruct (get_user_messages sid w) as [l w0]. cbn [snd] in *.
      intros [= <- <-]. split; [done|]. split; [by apply Hc0|]. done.
    + rewrite (send_message_response json_loads post sid fields raw w
                 Hprompt Hfull).
      destruct (get_user_messages_frame sid w Hsep) as [Hs0 Hc0].
      destruct (get_user_messages sid w) as [l w0] eqn:Hget.
      apply get_user_messages_spec in Hget as (Hl & _). cbn [fst snd] in *.
      intros [= <- <-].
      destruct (list_append_frame sid l (Message "user" (strip raw)) w0
                  Hs0 Hl) as [Hs1 Hc1].
      split; [done|]. split; [by rewrite Hc1, Hc0|].
      intros g out st w2 [= <-]. rewrite RelayFacts.exhaust_closed_form.
      cbn [chunks user_messages response_text fst snd].
      intros [= _ _ <-].
      destruct (snd (llm_stream _ _ _ _)).
      * destruct (list_append_frame sid l
                    (Message "assistant"
                       ("" +:+ join (fst (llm_stream json_loads post
                                            (get_llm (LLM_MODE w))
                                            (strip raw)))))
                    (list_append l (Message "user" (strip raw)) w0)
                    Hs1 Hl) as [Hs2 Hc2].
        split; [done|]. by rewrite Hc2, Hc1, Hc0.
      * split; [done|]. by rewrite Hc1, Hc0.
  - unfold clear_chat.
    pose proof (store_new_list_frame sid w Hsep) as [Hs Hc].
    destruct (new_list w). cbn [fst snd] in *. split; [done|by apply Hc].
Qed.

End SendMessage.

Lemma separate_one_session : separate one_session.
Proof.
  split; unfold one_session; cbn [CHAT_SESSIONS heap].
  - intros sid l [<- <-]%lookup_singleton_Some.
    rewrite dom_singleton_L. set_solver.
  - by intros sid1 sid2 l [<- _]%lookup_singleton_Some
                           [<- _]%lookup_singleton_Some.
Defined.

(** Session [a] takes a turn and clears its history next to session [b],
    which holds one message. *)
Lemma sessions_are_isolated_witness :
  separate one_session ∧
  "b" ≠ "a" ∧
  dict_get "prompt" (JStr "") [("prompt", JStr "hi")] = JStr "hi" ∧
  (∀ r w1,
     send_message loads offline "a" (prompt_body "hi") one_session = (r, w1) →
     conversation "b" w1 = [Message "user" "earlier"] ∧
     ∀ g out st w2, r = Response g → exhaust g w1 = (out, st, w2) →
       conversation "b" w2 = [Message "user" "earlier"]) ∧
  conversation "b" (snd (clear_chat "a" one_session)) =
    [Message "user" "earlier"].
Proof.
  assert ("b" ≠ "a") as Hne by discriminate.
  destruct (sessions_are_isolated loads offline "a" "b"
              [("prompt", JStr "hi")] "hi" one_session
              separate_one_session Hne eq_refl) as (Hturn & _ & Hclear).
  split; [exact separate_one_session|]. split; [exact Hne|].
  split; [reflexivity|]. split; [|exact Hclear].
  intros r w1 Hsend. destruct (Hturn r w1 Hsend) as (_ & Hc1 & Hrest).
  split; [exact Hc1|].
  intros g out st w2 Hr Hex. by destruct (Hrest g out st w2 Hr Hex).
Defined.

End IsolationFacts.

(** ** More on the local-model streams *)

Module LocalStreamFacts.
Import PyStr PyStrFacts Json Gen Http LocalModel Scenarios LocalModelFacts.

Lemma and_then_skip b : and_then ([], Continue) b = b.
Proof. by destruct b. Qed.

Lemma join_filter_nonempty texts :
  join (filter (λ t, t ≠ "") texts) = join texts.
Proof.
  induction texts as [|t texts IH]; [done|].
  destruct (decide (t = "")) as [->|Hne].
  - rewrite filter_cons_False by naive_solver. by rewrite join_cons, IH.
  - rewrite filter_cons_True by done. by rewrite !join_cons, IH.
Qed.

Section Stream.

Variable json_loads : string → option json.

Lemma on_line_skipped line :
  skipped json_loads line = true → on_line json_loads line = ([], Continue).
Proof.
  unfold skipped, on_line.
  destruct (is_empty line); [done|].
  destruct (String.eqb (strip line) "[DONE]"); [done|].
  destruct (String.prefix "data: " line); [|done].
  cbn [orb negb]. by destruct (json_loads (slice_from 6 line)).
Qed.

Lemma for_lines_without_skipped lines :
  for_lines json_loads (filter (λ l, skipped json_loads l = false) lines) =
  for_lines json_loads lines.
Proof.
  induction lines as [|line lines IH]; [done|].
  destruct (skipped json_loads line) eqn:Hskip.
  - rewrite filter_cons_False by (rewrite Hskip; done).
    cbn [for_lines]. by rewrite (on_line_skipped _ Hskip), and_then_skip.
  - rewrite filter_cons_True by done. cbn [for_lines]. by rewrite IH.
Qed.

Lemma on_line_carries_value line v :
  carries_value json_loads line v → on_line json_loads line = on_text v.
Proof.
  intros (d & members & choice & -> & Hloads & Hchoices & Htext).
  unfold on_line.
  assert (is_empty ("data: " +:+ d) = false) as -> by reflexivity.
  rewrite strip_data_line, prefix_data_line, slice_data_line, Hloads, Hchoices.
  cbn [orb py_iter for_choices]. by rewrite Htext, and_then_continue.
Qed.

(** A text that is not a string is never yielded: a false one ([None],
    [False], [0], an empty list or dict) is passed over, any other one
    raises. *)
Lemma on_text_not_a_string v :
  (∀ s, v ≠ JStr s) →
  if truthy v then ∃ e, on_text v = ([], Throw e)
  else on_text v = ([], Continue).
Proof.
  intros Hv. unfold on_text. destruct (truthy v) eqn:Ht; [|done].
  destruct v as [|b|n|s|items|members]; cbn [py_in]; eauto.
  - by destruct (Hv s).
  - destruct (existsb _ items); eauto.
  - destruct (existsb _ members); eauto.
Qed.

End Stream.

(** Lines that the loop passes over have no effect wherever they stand:
    the stream of a body is the stream of the body without its empty
    lines, its [[DONE]] lines, its lines that do not start with [data: ]
    and its lines whose JSON text does not parse. In particular [[DONE]]
    does not end the stream. *)
Theorem passed_over_lines_change_nothing
    (json_loads : string → option json) (lines : list string)
    (broken : option string) (prompt : string) :
  let kept := filter (λ l, skipped json_loads l = false) lines in
  TinyLlamaLLM.stream json_loads (always (Body lines broken)) prompt =
    TinyLlamaLLM.stream json_loads (always (Body kept broken)) prompt ∧
  Llama3_1_8bLLM.stream json_loads (always (Body lines broken)) prompt =
    Llama3_1_8bLLM.stream json_loads (always (Body kept broken)) prompt.
Proof.
  intros kept. subst kept.
  unfold TinyLlamaLLM.stream, Llama3_1_8bLLM.stream, LocalModel.stream, always.
  by rewrite for_lines_without_skipped.
Qed.

(** Without a stop marker nothing is lost: when the body delivers lines
    that carry the chunks [texts], none with a line feed, and then ends or
    breaks, the stream yields the non-empty chunks in order and ends by
    itself, and what it yields concatenates to the concatenation of all
    the chunks. *)
Theorem no_marker_stream_is_the_upstream_text
    (json_loads : string → option json) (lines texts : list string)
    (broken : option string) (prompt : string) :
  Forall2 (carries json_loads) lines texts →
  Forall (λ t, contains LF t = false) texts →
  TinyLlamaLLM.stream json_loads (always (Body lines broken)) prompt =
    (filter (λ t, t ≠ "") texts, StopIteration) ∧
  Llama3_1_8bLLM.stream json_loads (always (Body lines broken)) prompt =
    (filter (λ t, t ≠ "") texts, StopIteration) ∧
  join (filter (λ t, t ≠ "") texts) = join texts.
Proof.
  intros Hlines Htexts.
  unfold TinyLlamaLLM.stream, Llama3_1_8bLLM.stream, LocalModel.stream, always.
  rewrite (for_lines_plain json_loads _ _ Hlines Htexts).
  by rewrite join_filter_nonempty.
Qed.

(** A chunk whose text is a JSON value other than a string and is true in
    Python (a non-zero number, [true], a non-empty list or object) is not
    yielded: after the chunks before it the stream raises, and nothing
    after that line is read. *)
Theorem non_string_text_raises
    (json_loads : string → option json) (lines texts : list string)
    (line_k : string) (v : json) (later : list string)
    (broken : option string) (prompt : string) :
  Forall2 (carries json_loads) lines texts →
  Forall (λ t, contains LF t = false) texts →
  carries_value json_loads line_k v →
  (∀ s, v ≠ JStr s) →
  truthy v = true →
  ∃ e,
    TinyLlamaLLM.stream json_loads
      (always (Body (lines ++ line_k :: later) broken)) prompt =
      (filter (λ t, t ≠ "") texts, Raise e) ∧
    Llama3_1_8bLLM.stream json_loads
      (always (Body (lines ++ line_k :: later) broken)) prompt =
      (filter (λ t, t ≠ "") texts, Raise e).
Proof.
  intros Hlines Htexts Hk Hv Ht.
  pose proof (on_text_not_a_string v Hv) as Hon. rewrite Ht in Hon.
  destruct Hon as [e He]. exists e.
  unfold TinyLlamaLLM.stream, Llama3_1_8bLLM.stream, LocalModel.stream, always.
  rewrite for_lines_app, (for_lines_plain json_loads _ _ Hlines Htexts).
  cbn [for_lines]. rewrite (on_line_carries_value _ _ _ Hk), He.
  unfold and_then. cbn [fst snd]. by rewrite app_nil_r.
Qed.

End LocalStreamFacts.

(** ** More on turns *)

Module TurnFacts.
Import PyStr PyStrFacts Json Gen Http App StoreFacts Scenarios.

Lemma join_for_chunks chunks : join (RagLLM.for_chunks chunks) = join chunks.
Proof.
  induction chunks as [|c chunks IH]; [done|].
  cbn [RagLLM.for_chunks]. destruct c as [|a c]; cbn [is_empty].
  - by rewrite join_cons, IH.
  - by rewrite !join_cons, IH.
Qed.

(** A session that is in the map is read without any change. *)
Lemma get_user_messages_known sid l w :
  CHAT_SESSIONS w !! sid = Some l → get_user_messages sid w = (l, w).
Proof. intros Hl. unfold get_user_messages. by rewrite Hl. Qed.

(** A mode change and an append to a list do not see each other. *)
Lemma list_append_set_mode l m data w :
  list_append l m (snd (set_mode data w)) =
  snd (set_mode data (list_append l m w)).
Proof.
  unfold set_mode. destruct data; try done. cbn [snd].
  by destruct (known_mode _).
Qed.

Lemma selected_known_mode fields :
  selected (JObj fields) = known_mode (dict_get "mode" JNull fields).
Proof.
  unfold selected.
  destruct (dict_get "mode" JNull fields) as [| | |name| |]; try done.
  destruct (known_mode (JStr name)) as [s|] eqn:Hk.
  - apply RegistryFacts.known_mode_Some in Hk as [[= <-] Hin].
    by rewrite bool_decide_eq_true_2.
  - rewrite bool_decide_eq_false_2; [done|].
    intros Hin.
    assert (known_mode (JStr name) = Some name) as H
      by by apply RegistryFacts.known_mode_Some.
    congruence.
Qed.

(** One request to [set_mode] sets the mode to the selected name, if any,
    and nothing else. *)
Lemma set_mode_world data w :
  snd (set_mode data w) =
  {| CHAT_SESSIONS := CHAT_SESSIONS w;
     heap := heap w;
     LLM_MODE := default (LLM_MODE w) (selected data) |}.
Proof.
  destruct data as [| | | | |fields]; try by destruct w.
  rewrite selected_known_mode. unfold set_mode. cbn [snd].
  destruct (known_mode _); [done | by destruct w].
Qed.

Section SendMessage.

Variable json_loads : string → option json.
Variable post : client.

(** When an exception leaves the provider's stream after the fragments
    [fs], the response forwards [fs] and the exception leaves the
    generator: nothing is appended, and the conversation ends with the
    user message of the turn, with no assistant message after it. *)
Theorem provider_exception_leaves_the_turn_open
    (sid : string) (fields : list (string * json)) (raw : string)
    (w : world) (fs : list string) (e : pyexn) :
  dict_get "prompt" (JStr "") fields = JStr raw →
  strip raw ≠ "" →
  llm_stream json_loads post (get_llm (LLM_MODE w)) (strip raw) =
    (fs, Raise e) →
  ∃ g w1,
    send_message json_loads post sid (JObj fields) w = (Response g, w1) ∧
    exhaust g w1 = (fs, Ended (Raise e), w1) ∧
    conversation sid w1 =
      conversation sid w ++ [Message "user" (strip raw)].
Proof.
  intros Hprompt Hfull Hraise.
  destruct (turn json_loads post sid fields raw w Hprompt Hfull)
    as (l & w1 & Hsend & Hu & Hex).
  rewrite Hraise in Hsend. eexists _, w1. split; [exact Hsend|].
  split; [|exact Hu]. by destruct (Hex fs (Raise e)) as [-> _].
Qed.

(** A turn answered by the retrieval-augmented provider whose upstream
    delivers the chunks [items]: what the response forwards concatenates
    to the concatenation of [items], followed by the failure fragment when
    the body breaks, and that text is stored as the assistant message. *)
Theorem rag_turn_stores_the_upstream_text
    (sid : string) (fields : list (string * json)) (raw : string)
    (w : world) (items : list string) (broken : option string) :
  dict_get "prompt" (JStr "") fields = JStr raw →
  strip raw ≠ "" →
  LLM_MODE w = "rag" →
  post RagLLM.api_url (strip raw) = Body items broken →
  let text :=
    join items +:+ match broken with
                   | Some e => RagLLM.error_fragment e
                   | None => ""
                   end in
  ∃ g w1 out w2,
    send_message json_loads post sid (JObj fields) w = (Response g, w1) ∧
    exhaust g w1 = (out, Ended StopIteration, w2) ∧
    join out = text ∧
    conversation sid w2 =
      conversation sid w ++
        [Message "user" (strip raw); Message "assistant" text].
Proof.
  intros Hprompt Hfull Hmode Hpost text.
  destruct (turn json_loads post sid fields raw w Hprompt Hfull)
    as (l & w1 & Hsend & Hu & Hex).
  rewrite Hmode in Hsend.
  change (llm_stream json_loads post (get_llm "rag") (strip raw))
    with (RagLLM.stream post (strip raw)) in Hsend.
  unfold RagLLM.stream in Hsend. rewrite Hpost in Hsend.
  set (out := RagLLM.for_chunks items ++
                match broken with
                | Some e => [RagLLM.error_fragment e]
                | None => []
                end) in *.
  assert (join out = text) as Hjoin.
  { subst out text. rewrite join_app, join_for_chunks.
    destruct broken; [done|]. reflexivity. }
  destruct (Hex out StopIteration) as [He Hc].
  eexists _, w1, out, _. split; [exact Hsend|]. split; [exact He|].
  split; [exact Hjoin|]. by rewrite Hc, Hjoin.
Qed.

(** Two turns of one session that overlap: the second request arrives
    before the first response is read. Both generators hold the same
    list; the two user messages are stored first, and each assistant
    message is appended when its response has been read to the end, here
    the second before the first. *)
Theorem overlapping_turns_interleave
    (sid : string) (fields1 fields2 : list (string * json))
    (raw1 raw2 : string) (w : world) :
  dict_get "prompt" (JStr "") fields1 = JStr raw1 → strip raw1 ≠ "" →
  dict_get "prompt" (JStr "") fields2 = JStr raw2 → strip raw2 ≠ "" →
  ∃ g1 w1 g2 w2,
    send_message json_loads post sid (JObj fields1) w = (Response g1, w1) ∧
    send_message json_loads post sid (JObj fields2) w1 = (Response g2, w2) ∧
    user_messages g1 = user_messages g2 ∧
    ∀ fs1 fs2,
      chunks g1 = (fs1, StopIteration) → chunks g2 = (fs2, StopIteration) →
      ∃ w3 w4,
        exhaust g2 w2 = (fs2, Ended StopIteration, w3) ∧
        exhaust g1 w3 = (fs1, Ended StopIteration, w4) ∧
        conversation sid w4 =
          conversation sid w ++
            [Message "user" (strip raw1); Message "user" (strip raw2);
             Message "assistant" (join fs2); Message "assistant" (join fs1)].
Proof.
  intros Hp1 Hf1 Hp2 Hf2.
  rewrite (send_message_response json_loads post sid fields1 raw1 w Hp1 Hf1).
  destruct (get_user_messages sid w) as [l w0] eqn:Hget.
  apply get_user_messages_spec in Hget as (Hl & _ & Hc0 & _).
  cbn [fst snd].
  set (w1 := list_append l (Message "user" (strip raw1)) w0).
  assert (CHAT_SESSIONS w1 !! sid = Some l) as Hl1 by done.
  eexists _, w1, _, _. split; [reflexivity|].
  rewrite (send_message_response json_loads post sid fields2 raw2 w1 Hp2 Hf2).
  rewrite (get_user_messages_known sid l w1 Hl1). cbn [fst snd].
  set (w2 := list_append l (Message "user" (strip raw2)) w1).
  split; [reflexivity|]. split; [reflexivity|].
  cbn [chunks]. intros fs1 fs2 H1 H2.
  eexists _, _. split; [|split].
  - rewrite RelayFacts.exhaust_closed_form.
    cbn [chunks user_messages response_text]. rewrite H2. reflexivity.
  - rewrite RelayFacts.exhaust_closed_form.
    cbn [chunks user_messages response_text]. rewrite H1. reflexivity.
  - cbn [fst snd]. unfold w2, w1.
    rewrite !(conversation_list_append sid l) by done.
    rewrite Hc0, <- !app_assoc. done.
Qed.

(** A mode change while a response is being read: the response forwards
    and stores what it would have without the change, and the change is
    there afterwards; the next request of a prompt is answered by the
    provider of the selected name. *)
Theorem mode_change_spares_the_running_response
    (g : generator) (w : world) (data : json) (name : string)
    (sid : string) (fields : list (string * json)) (raw : string) :
  selected data = Some name →
  dict_get "prompt" (JStr "") fields = JStr raw →
  strip raw ≠ "" →
  exhaust g (snd (set_mode data w)) =
    (let '(out, st, w2) := exhaust g w in (out, st, snd (set_mode data w2))) ∧
  ∃ g' w',
    send_message json_loads post sid (JObj fields) (snd (set_mode data w)) =
      (Response g', w') ∧
    chunks g' = llm_stream json_loads post (get_llm name) (strip raw).
Proof.
  intros Hsel Hprompt Hfull. split.
  - rewrite !RelayFacts.exhaust_closed_form.
    destruct (snd (chunks g)); [|done].
    by rewrite list_append_set_mode.
  - rewrite (send_message_response json_loads post sid fields raw _
               Hprompt Hfull).
    eexists _, _. split; [reflexivity|]. cbn [chunks].
    by rewrite set_mode_world, Hsel.
Qed.

End SendMessage.

Lemma default_last_cons {A} (d x : A) (l : list A) :
  default d (last (x :: l)) = default x (last l).
Proof.
  revert d x. induction l as [|y l IH]; intros d x; [done|].
  rewrite last_cons_cons. by rewrite (IH d y), (IH x y).
Qed.

(** After any sequence of requests to [set_mode], the active mode is the
    name selected by the last request that selects one of the four names,
    and the mode from before when no request does; the session map and the
    lists are as they were. *)
Theorem last_accepted_mode_wins (requests : list json) (w : world) :
  set_modes requests w =
  {| CHAT_SESSIONS := CHAT_SESSIONS w;
     heap := heap w;
     LLM_MODE := default (LLM_MODE w) (last (omap selected requests)) |}.
Proof.
  revert w. induction requests as [|data requests IH]; intros w.
  - by destruct w.
  - change (set_modes (data :: requests) w)
      with (set_modes requests (snd (set_mode data w))).
    rewrite IH, set_mode_world. cbn [CHAT_SESSIONS heap LLM_MODE].
    f_equal. destruct (selected data) as [name|] eqn:Hsel.
    + cbn [default]. symmetry.
      change (omap selected (data :: requests))
        with (match selected data with
              | Some y => y :: omap selected requests
              | None => omap selected requests
              end).
      rewrite Hsel. apply default_last_cons.
    + change (omap selected (data :: requests))
        with (match selected data with
              | Some y => y :: omap selected requests
              | None => omap selected requests
              end).
      by rewrite Hsel.
Qed.

(** [index] shows the session's conversation and the active mode, serves
    the same page again when asked again, and changes no conversation and
    not the mode: only the empty list of a session seen for the first time
    is created. *)
Theorem index_is_read_only (sid : string) (w : world) :
  let w1 := snd (index sid w) in
  fst (index sid w) =
    {| template := "app.html";
       messages := conversation sid w;
       llm_mode := LLM_MODE w |} ∧
  index sid w1 = (fst (index sid w), w1) ∧
  conversation sid w1 = conversation sid w ∧
  LLM_MODE w1 = LLM_MODE w ∧
  (separate w → ∀ sid', conversation sid' w1 = conversation sid' w).
Proof.
  intros w1. subst w1. unfold index.
  pose proof (IsolationFacts.get_user_messages_frame sid w) as Hframe.
  destruct (get_user_messages sid w) as [l w1] eqn:Hget.
  apply get_user_messages_spec in Hget as (Hl & Hd & Hc & Hm).
  cbn [fst snd] in *.
  rewrite (get_user_messages_known sid l w1 Hl), Hd, Hm.
  repeat split; try done.
  intros Hsep sid'. destruct (decide (sid' = sid)) as [->|Hne]; [done|].
  by apply Hframe.
Qed.

End TurnFacts.

(** ** What the mock provider echoes *)

Module MockFacts.
Import PyStr PyStrFacts Gen.

(** [split] cuts at a white-space character: the words before it, then
    the words after it. *)
Lemma split_go_app_space cur a c b :
  isspace c = true →
  split_go cur (a +:+ String c b) = split_go cur a ++ split_go "" b.
Proof.
  intros Hc. revert cur. induction a as [|d a IH]; intros cur.
  - change ("" +:+ String c b) with (String c b).
    cbn [split_go]. rewrite Hc. by destruct cur.
  - rewrite append_cons. cbn [split_go]. destruct (isspace d).
    + destruct cur; by rewrite IH.
    + apply IH.
Qed.

(** For every prompt the mock provider yields [[Mock] ], [You ], [said: ],
    then each white-space separated word of the prompt followed by one
    space, then [This ], [is ], [a ], [mock ], [response. ]: white space
    inside the prompt, line feeds included, is reduced to the single
    spaces between the chunks. *)
Theorem mock_stream_echoes_the_words (prompt : string) :
  fst (MockLLM.stream prompt) =
    ["[Mock] "; "You "; "said: "]
    ++ map (λ token, token +:+ " ") (split prompt)
    ++ ["This "; "is "; "a "; "mock "; "response. "].
Proof.
  unfold MockLLM.stream, MockLLM.fake_answer. cbn [fst].
  change ("[Mock] You said: " +:+ prompt +:+ LF +:+ "This is a mock response.")
    with ("[Mock] You said:" +:+
            String " " (prompt +:+ LF +:+ "This is a mock response.")).
  unfold split. rewrite split_go_app_space by done.
  change (prompt +:+ LF +:+ "This is a mock response.")
    with (prompt +:+ String "010" "This is a mock response.").
  rewrite split_go_app_space by done.
  rewrite !map_app. reflexivity.
Qed.

End MockFacts.

(** ** The address logged by the retrieval-augmented provider *)

Module UserIpFacts.
Import PyStr PyStrFacts.











End UserIpFacts.

(** ** Loggers and the session tag *)

Module LoggerFacts.
Import PyStr PyStrFacts LoggerSetup.



End LoggerFacts.

(** ** The added results on concrete inputs *)

Module MoreScenarios.
Import PyStr PyStrFacts Json Gen Http App Scenarios.

Lemma carries_The : LocalModel.carries loads (chunk_line "The") "The".
Proof.
  exists (chunk_data "The"), [("choices", JArr [JObj [("text", JStr "The")]])],
    [("text", JStr "The")].
  repeat split; reflexivity.
Defined.

Lemma carries_sky : LocalModel.carries loads (chunk_line " sky") " sky".
Proof.
  exists (chunk_data " sky"),
    [("choices", JArr [JObj [("text", JStr " sky")]])],
    [("text", JStr " sky")].
  repeat split; reflexivity.
Defined.

Lemma carries_five : LocalModel.carries_value loads (value_line "5") (JNum 5).
Proof.
  exists (slice_from 6 (value_line "5")),
    [("choices", JArr [JObj [("text", JNum 5)]])], [("text", JNum 5)].
  repeat split; reflexivity.
Defined.

Lemma two_plain_lines :
  Forall2 (LocalModel.carries loads)
    [chunk_line "The"; chunk_line " sky"] ["The"; " sky"].
Proof. repeat constructor; [exact carries_The | exact carries_sky]. Defined.

Lemma two_plain_texts :
  Forall (λ t, contains LF t = false) ["The"; " sky"].
Proof. repeat constructor. Defined.

(** Two chunks and a connection that breaks after them. *)
Lemma no_marker_stream_witness :
  Forall2 (LocalModel.carries loads)
    [chunk_line "The"; chunk_line " sky"] ["The"; " sky"] ∧
  Forall (λ t, contains LF t = false) ["The"; " sky"] ∧
  TinyLlamaLLM.stream loads
    (always (Body [chunk_line "The"; chunk_line " sky"] (Some "reset")))
    "Why is the sky blue?" = (["The"; " sky"], StopIteration) ∧
  join ["The"; " sky"] = "The sky".
Proof.
  split; [exact two_plain_lines|]. split; [exact two_plain_texts|].
  destruct (LocalStreamFacts.no_marker_stream_is_the_upstream_text loads
              [chunk_line "The"; chunk_line " sky"] ["The"; " sky"]
              (Some "reset") "Why is the sky blue?"
              two_plain_lines two_plain_texts) as (Htiny & _ & Hjoin).
  split; [exact Htiny | exact Hjoin].
Defined.

(** Two chunks, then a chunk whose text is the number 5, then a chunk
    that is never read. *)
Lemma non_string_text_witness :
  LocalModel.carries_value loads (value_line "5") (JNum 5) ∧
  (∀ s, JNum 5 ≠ JStr s) ∧
  truthy (JNum 5) = true ∧
  ∃ e,
    TinyLlamaLLM.stream loads
      (always (Body ([chunk_line "The"; chunk_line " sky"]
                       ++ value_line "5" :: [chunk_line "late"]) None))
      "q" = (["The"; " sky"], Raise e).
Proof.
  assert (∀ s, JNum 5 ≠ JStr s) as Hnum by (intros s; discriminate).
  split; [exact carries_five|]. split; [exact Hnum|].
  split; [reflexivity|].
  destruct (LocalStreamFacts.non_string_text_raises loads
              [chunk_line "The"; chunk_line " sky"] ["The"; " sky"]
              (value_line "5") (JNum 5) [chunk_line "late"] None "q"
              two_plain_lines two_plain_texts carries_five Hnum eq_refl)
    as (e & Htiny & _).
  exists e. exact Htiny.
Defined.

(** The local model answers with one chunk and then a chunk whose text is
    a number: the turn of session [s] stays open. *)
Lemma provider_exception_witness :
  let upstream := always (Body [chunk_line "The"; value_line "5"] None) in
  let w := started_in "tinyllama" in
  dict_get "prompt" (JStr "") [("prompt", JStr "hi")] = JStr "hi" ∧
  strip "hi" ≠ "" ∧
  llm_stream loads upstream (get_llm (LLM_MODE w)) (strip "hi") =
    (["The"], Raise TypeError) ∧
  ∃ g w1,
    send_message loads upstream "s" (prompt_body "hi") w = (Response g, w1) ∧
    exhaust g w1 = (["The"], Ended (Raise TypeError), w1) ∧
    conversation "s" w1 = [Message "user" "hi"].
Proof.
  assert (strip "hi" ≠ "") as Hfull by discriminate.
  split; [reflexivity|]. split; [exact Hfull|]. split; [reflexivity|].
  exact (TurnFacts.provider_exception_leaves_the_turn_open loads
           (always (Body [chunk_line "The"; value_line "5"] None))
           "s" [("prompt", JStr "hi")] "hi" (started_in "tinyllama")
           ["The"] TypeError eq_refl Hfull eq_refl).
Defined.

(** The retrieval-augmented provider delivers [a], an empty chunk and
    [b], then the connection breaks. *)
Lemma rag_turn_witness :
  let upstream := always (Body ["a"; ""; "b"] (Some "boom")) in
  let w := started_in "rag" in
  dict_get "prompt" (JStr "") [("prompt", JStr "hi")] = JStr "hi" ∧
  strip "hi" ≠ "" ∧
  LLM_MODE w = "rag" ∧
  upstream RagLLM.api_url (strip "hi") = Body ["a"; ""; "b"] (Some "boom") ∧
  ∃ g w1 out w2,
    send_message loads upstream "s" (prompt_body "hi") w = (Response g, w1) ∧
    exhaust g w1 = (out, Ended StopIteration, w2) ∧
    join out = "ab[Error fetching RAG response: boom]" ∧
    conversation "s" w2 =
      [Message "user" "hi";
       Message "assistant" "ab[Error fetching RAG response: boom]"].
Proof.
  assert (strip "hi" ≠ "") as Hfull by discriminate.
  split; [reflexivity|]. split; [exact Hfull|]. split; [reflexivity|].
  split; [reflexivity|].
  exact (TurnFacts.rag_turn_stores_the_upstream_text loads
           (always (Body ["a"; ""; "b"] (Some "boom")))
           "s" [("prompt", JStr "hi")] "hi" (started_in "rag")
           ["a"; ""; "b"] (Some "boom") eq_refl Hfull eq_refl eq_refl).
Defined.

(** The prompts [one] and [two] in session [s] of a fresh process. *)
Lemma overlapping_turns_witness :
  strip "one" ≠ "" ∧ strip "two" ≠ "" ∧
  ∃ g1 w1 g2 w2 w3 w4 fs1 fs2,
    send_message loads offline "s" (prompt_body "one") initial =
      (Response g1, w1) ∧
    send_message loads offline "s" (prompt_body "two") w1 =
      (Response g2, w2) ∧
    exhaust g2 w2 = (fs2, Ended StopIteration, w3) ∧
    exhaust g1 w3 = (fs1, Ended StopIteration, w4) ∧
    conversation "s" w4 =
      [Message "user" "one"; Message "user" "two";
       Message "assistant" (join fs2); Message "assistant" (join fs1)].
Proof.
  assert (strip "one" ≠ "") as H1 by discriminate.
  assert (strip "two" ≠ "") as H2 by discriminate.
  split; [exact H1|]. split; [exact H2|].
  destruct (TurnFacts.overlapping_turns_interleave loads offline "s"
              [("prompt", JStr "one")] [("prompt", JStr "two")]
              "one" "two" initial eq_refl H1 eq_refl H2)
    as (g1 & w1 & g2 & w2 & Hs1 & Hs2 & _ & Hrest).
  assert (chunks g1 = (fst (chunks g1), StopIteration)) as Hg1.
  { vm_compute in Hs1. injection Hs1 as <- _. reflexivity. }
  assert (chunks g2 = (fst (chunks g2), StopIteration)) as Hg2.
  { vm_compute in Hs1. injection Hs1 as _ <-.
    vm_compute in Hs2. injection Hs2 as <- _. reflexivity. }
  destruct (Hrest (fst (chunks g1)) (fst (chunks g2)) Hg1 Hg2)
    as (w3 & w4 & He2 & He1 & Hc).
  exists g1, w1, g2, w2, w3, w4, (fst (chunks g1)), (fst (chunks g2)).
  repeat split; assumption.
Defined.

(** The mode is changed to [rag] while a response of the mock provider is
    being read in session [s]. *)
Lemma mode_change_witness :
  let data := JObj [("mode", JStr "rag")] in
  selected data = Some "rag" ∧
  strip "hi" ≠ "" ∧
  ∀ g w,
    exhaust g (snd (set_mode data w)) =
      (let '(out, st, w2) := exhaust g w in
       (out, st, snd (set_mode data w2))) ∧
    ∃ g' w',
      send_message loads offline "s" (prompt_body "hi")
        (snd (set_mode data w)) = (Response g', w') ∧
      chunks g' = RagLLM.stream offline "hi".
Proof.
  assert (strip "hi" ≠ "") as Hfull by discriminate.
  split; [reflexivity|]. split; [exact Hfull|]. intros g w.
  exact (TurnFacts.mode_change_spares_the_running_response loads offline
           g w (JObj [("mode", JStr "rag")]) "rag" "s"
           [("prompt", JStr "hi")] "hi" eq_refl eq_refl Hfull).
Defined.

End MoreScenarios.

(** ** Requests with a body of the wrong shape *)

Module MalformedFacts.
Import PyStr Json Gen Http App.

(** A request to [send_message] whose body is not a JSON object, or whose
    [prompt] is there and is not a string, raises [AttributeError] before
    anything is stored: the store is unchanged, the list of a new session
    is not even created. A request to [set_mode] whose body is not a JSON
    object raises the same way and leaves the mode as it was. *)
Theorem malformed_requests_raise_and_store_nothing
    (json_loads : string → option json) (post : client)
    (sid : string) (data : json) (w : world) :
  ((∀ fields raw, data = JObj fields →
                  dict_get "prompt" (JStr "") fields ≠ JStr raw) →
   send_message json_loads post sid data w =
     (InternalError AttributeError, w)) ∧
  ((∀ fields, data ≠ JObj fields) →
   set_mode data w = (InternalError AttributeError, w)).
Proof.
  split.
  - intros Hbad. unfold send_message.
    destruct data as [| | | | |fields]; try done.
    destruct (dict_get "prompt" (JStr "") fields) as [| | |raw| |] eqn:Hp;
      try done.
    by destruct (Hbad fields raw eq_refl).
  - intros Hbad. unfold set_mode.
    destruct data as [| | | | |fields]; try done.
    by destruct (Hbad fields).
Qed.

End MalformedFacts.
